(** * auto_ml: the [Predictor] orchestrator of [auto_ml/predictor.py]

    A shallow embedding of the class [Predictor]: its constructor, the
    pipeline and search-space builders, target preparation, the training
    driver with its per-family grid search and final selection, and the
    prediction facade.

    Python objects are modelled as follows.
    - An instance attribute that is assigned outside [__init__] (or deleted
      with [del]) is an [option]: [None] means the attribute is not set and
      reading it raises [AttributeError].
    - Exceptions are values of [exn]; a method is a function from the
      receiver to an outcome made of a result, the receiver as the method
      left it, and the events (prints, file removals, fits) it emitted.
    - What the class calls in the Python runtime and in scikit-learn is taken
      as an interface ([PyRuntime], [MLLibrary]); nothing is assumed about
      it beyond what the classes state. *)

From Stdlib Require Import ZArith Ascii String.
From stdpp Require Import base option list strings gmap fin_maps sorting.

Local Open Scope Z_scope.

(** ** Exceptions and results *)

Inductive exn : Type :=
| AttributeError (attr : string)
| NameError (name : string)
| ValueError (msg : string)
| TypeError (msg : string)
| KeyError (key : string)
| IndexError (msg : string)
| LibraryError (msg : string).

Inductive result (A : Type) : Type :=
| Ok (a : A)
| Raise (e : exn).
Arguments Ok {A} a.
Arguments Raise {A} e.

Definition is_ok {A} (r : result A) : bool :=
  match r with Ok _ => true | Raise _ => false end.

#[global] Instance result_ret : MRet result := @Ok.
#[global] Instance result_bind : MBind result := λ A B k r,
  match r with
  | Ok a => k a
  | Raise e => Raise e
  end.

(** ** Python values

    The values that travel through the orchestrator: cells of the training
    records, target values, prediction outputs. [float] is the runtime's
    float type. *)

Inductive PyVal (float : Type) : Type :=
| VNone
| VBool (b : bool)
| VInt (n : Z)
| VFloat (x : float)
| VStr (s : string).
Arguments VNone {float}.
Arguments VBool {float} b.
Arguments VInt {float} n.
Arguments VFloat {float} x.
Arguments VStr {float} s.

(** ** The Python runtime, as far as the class uses it

    [builtin_float] and [builtin_int] are the coercions [float(val)] and
    [int(val)]: [None] stands for any exception, which is all a bare
    [except:] can tell.  [math_log] and [math_exp] are [math.log] and
    [math.exp]; on a float, [math.log] raises its domain error exactly at
    [x <= 0].  Floats are compared with [<]; [float_le x float_zero] is
    [x <= 0].  The order laws leave NaN out of the model. *)

Class PyRuntime : Type := {
  float : Type;
  float_zero : float;
  float_lt : float → float → bool;
  float_le : float → float → bool;
  builtin_float : PyVal float → option float;
  builtin_int : PyVal float → option Z;
  math_log : PyVal float → result float;
  math_exp : PyVal float → result float;
  float_le_lt : ∀ x y, float_le x y = negb (float_lt y x);
  float_lt_irrefl : ∀ x, float_lt x x = false;
  float_lt_trans : ∀ x y z,
    float_lt x y = true → float_lt y z = true → float_lt x z = true;
  float_le_trans : ∀ x y z,
    float_le x y = true → float_le y z = true → float_le x z = true;
  math_log_domain : ∀ x,
    float_le x float_zero = true →
    math_log (VFloat x) = Raise (ValueError "math domain error");
  math_log_positive : ∀ x,
    float_le x float_zero = false → is_ok (math_log (VFloat x)) = true;
}.

(** ** Strings: [str.lower] on byte strings *)

Definition ascii_lower (c : ascii) : ascii :=
  let n := N_of_ascii c in
  if ((65 <=? n) && (n <=? 90))%N then ascii_of_N (n + 32) else c.

Fixpoint lower (s : string) : string :=
  match s with
  | EmptyString => EmptyString
  | String c rest => String (ascii_lower c) (lower rest)
  end.

(** [x in [a, b, ...]] on strings. *)
Definition str_in (x : string) (l : list string) : bool :=
  bool_decide (x ∈ l).

Definition regressor_synonyms : list string :=
  ["regressor"; "regression"; "regressions"; "regressors"; "number";
   "numeric"; "continuous"].

Definition classifier_synonyms : list string :=
  ["classifier"; "classification"; "categorizer"; "categorization";
   "categories"; "labels"; "labeled"; "label"].

(** The double-quote character, for the messages that contain it. *)
Definition dq : string := String (ascii_of_N 34) EmptyString.

Definition invalid_type_msg (type_of_estimator : string) : string :=
  "Invalid value for " +:+ dq +:+ "type_of_estimator" +:+ dq +:+
  ". Please pass in either " +:+ dq +:+ "regressor" +:+ dq +:+ " or " +:+
  dq +:+ "classifier" +:+ dq +:+ ". You passed in: " +:+ type_of_estimator.

Definition nl : string := String (ascii_of_N 10) EmptyString.

(** ** scikit-learn objects the orchestrator builds and receives *)

(** What the orchestrator only passes around: the user's row transform and
    a fitted pipeline ([gs.best_estimator_]). *)
Class MLTypes : Type := {
  UserFunc : Type;
  Fitted : Type;
}.

(** A value of a hyperparameter axis. *)
Inductive param : Type :=
| PBool (b : bool)
| PStr (s : string).

Inductive Scorer : Type :=
| brier_scorer   (* make_scorer(brier_score_loss, greater_is_better=True) *)
| rmse_scoring.  (* utils.rmse_scoring *)

Section Model.
Context `{RT : PyRuntime} `{MT : MLTypes}.

Local Abbreviation value := (PyVal float).
Local Abbreviation Row := (gmap string (PyVal float)).
Local Abbreviation ParamGrid := (gmap string (list param)).

(** The stages [_construct_pipeline] instantiates, with the arguments it
    gives them. *)
Inductive stage : Type :=
| FunctionTransformer (func : UserFunc) (pass_y validate : bool)
| FeatureEngineer (date_cols : list string)
| BasicDataCleaning (column_descriptions : list (string * string))
| CustomSparseScaler (column_descriptions : list (string * string))
| DictVectorizer (sparse : bool)
| FeatureSelectionTransformer
    (type_of_estimator feature_selection_model : string)
| FinalModelATC (model_name : string) (perform_grid_search_on_model : bool)
    (type_of_estimator : string) (ml_for_analytics : bool).

(** [Pipeline(pipeline_list)]: the named steps in order. *)
Definition Pipeline : Type := list (string * stage).

(** The arguments of the [GridSearchCV(...)] call. *)
Record GridSearchCV : Type := mkGridSearchCV {
  estimator : Pipeline;
  cv : Z;
  param_grid : ParamGrid;
  n_jobs : Z;
  gs_verbose : Z;
  error_score : Z;
  scoring : Scorer;
  pre_dispatch : string;
}.

(** The search object after [gs.fit(X, y)]. *)
Record FittedSearch : Type := mkFittedSearch {
  search : GridSearchCV;
  best_estimator_ : Fitted;
  best_score_ : float;
  best_params_ : gmap string param;
}.

(** An element of what [pipeline.predict] returns: a scalar, or itself a
    sequence (a row of a two-dimensional output, a tuple). *)
Inductive pred_item : Type :=
| Scalar (v : value)
| Items (vs : list value).

Inductive printed : Type :=
| PText (s : string)
| PIndices (idxs : list nat)
| PValues (vals : list value)
| PFloat (x : float)
| PParams (ps : gmap string param).

Inductive event : Type :=
| EPrint (p : printed)
| ERemove (path : string)
| EFit (gs : GridSearchCV) (X : list Row) (y : list value)
| EWrite (path : string).

(** What the class calls outside this file.  [gs_fit] is [gs.fit(X, y)]
    and yields the best estimator, best score and best parameters; the
    two analytics reports only read the fitted pipeline and print. *)
Class MLLibrary : Type := {
  gs_fit : GridSearchCV → list Row → list value →
           result (Fitted * float * gmap string param);
  scorer_call : Scorer → Fitted → list Row → list value → bool →
                result float;
  pipeline_score : Fitted → list Row → list value → result float;
  pipeline_predict : Fitted → list Row → result (list pred_item);
  pipeline_predict_proba : Fitted → list Row → result (list pred_item);
  ml_analytics_regression : Fitted → string → list printed * result unit;
  ml_analytics_random_forest : Fitted → list printed * result unit;
  utils_write_gs_param_results_to_file :
    FittedSearch → string → result unit;
}.
Context `{ML : MLLibrary}.

(** One entry of [self.grid_search_pipelines]: the list
    [[holdout_data_score,] gs.best_score_, gs]. *)
Record pipeline_results : Type := mkResults {
  holdout_data_score : option float;
  cv_score : float;
  fitted_search : FittedSearch;
}.

(** [x[0]] of such a list. *)
Definition first_score (r : pipeline_results) : float :=
  match holdout_data_score r with
  | Some h => h
  | None => cv_score r
  end.

(** ** The [Predictor] instance *)

Record Predictor : Type := mkPredictor {
  type_of_estimator : string;
  column_descriptions : list (string * string);
  verbose : bool;
  trained_pipeline : option Fitted;          (* None is Python's None *)
  _scorer : option Scorer;                   (* None is Python's None *)
  date_cols : list string;
  took_log_of_y : bool;
  grid_search_pipelines : option (list pipeline_results);
  output_column : option string;
  write_gs_param_results_to_file : option bool;
  compute_power : option Z;
  ml_for_analytics : option bool;
  only_analytics : option bool;
  X_test : option (option (list Row));
  y_test : option (option (list value));
  print_training_summary_to_viewer : option bool;
  take_log_of_y : option bool;
  gs_param_file_name : option string;
  grid_search_params : option ParamGrid;
}.

(** Attribute assignment [self.f = v] (and [del self.f] as [None]). *)
Definition set_trained_pipeline v (s : Predictor) : Predictor :=
  mkPredictor (type_of_estimator s) (column_descriptions s) (verbose s) v
    (_scorer s) (date_cols s) (took_log_of_y s) (grid_search_pipelines s)
    (output_column s) (write_gs_param_results_to_file s) (compute_power s)
    (ml_for_analytics s) (only_analytics s) (X_test s) (y_test s)
    (print_training_summary_to_viewer s) (take_log_of_y s)
    (gs_param_file_name s) (grid_search_params s).
Definition set_scorer v (s : Predictor) : Predictor :=
  mkPredictor (type_of_estimator s) (column_descriptions s) (verbose s)
    (trained_pipeline s) v (date_cols s) (took_log_of_y s)
    (grid_search_pipelines s) (output_column s)
    (write_gs_param_results_to_file s) (compute_power s)
    (ml_for_analytics s) (only_analytics s) (X_test s) (y_test s)
    (print_training_summary_to_viewer s) (take_log_of_y s)
    (gs_param_file_name s) (grid_search_params s).
Definition set_took_log_of_y v (s : Predictor) : Predictor :=
  mkPredictor (type_of_estimator s) (column_descriptions s) (verbose s)
    (trained_pipeline s) (_scorer s) (date_cols s) v
    (grid_search_pipelines s) (output_column s)
    (write_gs_param_results_to_file s) (compute_power s)
    (ml_for_analytics s) (only_analytics s) (X_test s) (y_test s)
    (print_training_summary_to_viewer s) (take_log_of_y s)
    (gs_param_file_name s) (grid_search_params s).
Definition set_grid_search_pipelines v (s : Predictor) : Predictor :=
  mkPredictor (type_of_estimator s) (column_descriptions s) (verbose s)
    (trained_pipeline s) (_scorer s) (date_cols s) (took_log_of_y s) v
    (output_column s) (write_gs_param_results_to_file s) (compute_power s)
    (ml_for_analytics s) (only_analytics s) (X_test s) (y_test s)
    (print_training_summary_to_viewer s) (take_log_of_y s)
    (gs_param_file_name s) (grid_search_params s).
Definition set_write_gs_param_results_to_file v (s : Predictor) : Predictor :=
  mkPredictor (type_of_estimator s) (column_descriptions s) (verbose s)
    (trained_pipeline s) (_scorer s) (date_cols s) (took_log_of_y s)
    (grid_search_pipelines s) (output_column s) v (compute_power s)
    (ml_for_analytics s) (only_analytics s) (X_test s) (y_test s)
    (print_training_summary_to_viewer s) (take_log_of_y s)
    (gs_param_file_name s) (grid_search_params s).
Definition set_compute_power v (s : Predictor) : Predictor :=
  mkPredictor (type_of_estimator s) (column_descriptions s) (verbose s)
    (trained_pipeline s) (_scorer s) (date_cols s) (took_log_of_y s)
    (grid_search_pipelines s) (output_column s)
    (write_gs_param_results_to_file s) v (ml_for_analytics s)
    (only_analytics s) (X_test s) (y_test s)
    (print_training_summary_to_viewer s) (take_log_of_y s)
    (gs_param_file_name s) (grid_search_params s).
Definition set_ml_for_analytics v (s : Predictor) : Predictor :=
  mkPredictor (type_of_estimator s) (column_descriptions s) (verbose s)
    (trained_pipeline s) (_scorer s) (date_cols s) (took_log_of_y s)
    (grid_search_pipelines s) (output_column s)
    (write_gs_param_results_to_file s) (compute_power s) v
    (only_analytics s) (X_test s) (y_test s)
    (print_training_summary_to_viewer s) (take_log_of_y s)
    (gs_param_file_name s) (grid_search_params s).
Definition set_only_analytics v (s : Predictor) : Predictor :=
  mkPredictor (type_of_estimator s) (column_descriptions s) (verbose s)
    (trained_pipeline s) (_scorer s) (date_cols s) (took_log_of_y s)
    (grid_search_pipelines s) (output_column s)
    (write_gs_param_results_to_file s) (compute_power s)
    (ml_for_analytics s) v (X_test s) (y_test s)
    (print_training_summary_to_viewer s) (take_log_of_y s)
    (gs_param_file_name s) (grid_search_params s).
Definition set_X_test v (s : Predictor) : Predictor :=
  mkPredictor (type_of_estimator s) (column_descriptions s) (verbose s)
    (trained_pipeline s) (_scorer s) (date_cols s) (took_log_of_y s)
    (grid_search_pipelines s) (output_column s)
    (write_gs_param_results_to_file s) (compute_power s)
    (ml_for_analytics s) (only_analytics s) v (y_test s)
    (print_training_summary_to_viewer s) (take_log_of_y s)
    (gs_param_file_name s) (grid_search_params s).
Definition set_y_test v (s : Predictor) : Predictor :=
  mkPredictor (type_of_estimator s) (column_descriptions s) (verbose s)
    (trained_pipeline s) (_scorer s) (date_cols s) (took_log_of_y s)
    (grid_search_pipelines s) (output_column s)
    (write_gs_param_results_to_file s) (compute_power s)
    (ml_for_analytics s) (only_analytics s) (X_test s) v
    (print_training_summary_to_viewer s) (take_log_of_y s)
    (gs_param_file_name s) (grid_search_params s).
Definition set_print_training_summary_to_viewer v (s : Predictor) : Predictor :=
  mkPredictor (type_of_estimator s) (column_descriptions s) (verbose s)
    (trained_pipeline s) (_scorer s) (date_cols s) (took_log_of_y s)
    (grid_search_pipelines s) (output_column s)
    (write_gs_param_results_to_file s) (compute_power s)
    (ml_for_analytics s) (only_analytics s) (X_test s) (y_test s) v
    (take_log_of_y s) (gs_param_file_name s) (grid_search_params s).
Definition set_take_log_of_y v (s : Predictor) : Predictor :=
  mkPredictor (type_of_estimator s) (column_descriptions s) (verbose s)
    (trained_pipeline s) (_scorer s) (date_cols s) (took_log_of_y s)
    (grid_search_pipelines s) (output_column s)
    (write_gs_param_results_to_file s) (compute_power s)
    (ml_for_analytics s) (only_analytics s) (X_test s) (y_test s)
    (print_training_summary_to_viewer s) v (gs_param_file_name s)
    (grid_search_params s).
Definition set_gs_param_file_name v (s : Predictor) : Predictor :=
  mkPredictor (type_of_estimator s) (column_descriptions s) (verbose s)
    (trained_pipeline s) (_scorer s) (date_cols s) (took_log_of_y s)
    (grid_search_pipelines s) (output_column s)
    (write_gs_param_results_to_file s) (compute_power s)
    (ml_for_analytics s) (only_analytics s) (X_test s) (y_test s)
    (print_training_summary_to_viewer s) (take_log_of_y s) v
    (grid_search_params s).
Definition set_grid_search_params v (s : Predictor) : Predictor :=
  mkPredictor (type_of_estimator s) (column_descriptions s) (verbose s)
    (trained_pipeline s) (_scorer s) (date_cols s) (took_log_of_y s)
    (grid_search_pipelines s) (output_column s)
    (write_gs_param_results_to_file s) (compute_power s)
    (ml_for_analytics s) (only_analytics s) (X_test s) (y_test s)
    (print_training_summary_to_viewer s) (take_log_of_y s)
    (gs_param_file_name s) v.

(** ** Methods as computations on the receiver

    A method body runs against the receiver [self]; it yields a result (or
    the exception that ended it), the receiver as it stands then, and the
    events emitted so far.  An exception keeps the assignments made before
    it. *)

Definition M (A : Type) : Type :=
  Predictor → result A * Predictor * list event.

Definition ret {A} (a : A) : M A := λ s, (Ok a, s, []).

Definition raise {A} (e : exn) : M A := λ s, (Raise e, s, []).

Definition bind {A B} (m : M A) (k : A → M B) : M B := λ s,
  match m s with
  | (Ok a, s1, t1) =>
      match k a s1 with (r, s2, t2) => (r, s2, t1 ++ t2) end
  | (Raise e, s1, t1) => (Raise e, s1, t1)
  end.

#[local] Instance M_ret : MRet M := @ret.
#[local] Instance M_bind : MBind M := λ A B k m, bind m k.

(** [self.f] for an attribute always set. *)
Definition read {A} (f : Predictor → A) : M A := λ s, (Ok (f s), s, []).

(** [self.f] for an attribute that may not be set. *)
Definition getattr {A} (name : string) (f : Predictor → option A) : M A :=
  λ s, match f s with
       | Some v => (Ok v, s, [])
       | None => (Raise (AttributeError name), s, [])
       end.

Definition assign (upd : Predictor → Predictor) : M unit :=
  λ s, (Ok tt, upd s, []).

Definition emit (e : event) : M unit := λ s, (Ok tt, s, [e]).

Definition print (p : printed) : M unit := emit (EPrint p).

Definition print_all (ps : list printed) : M unit :=
  λ s, (Ok tt, s, EPrint <$> ps).

Definition lift {A} (r : result A) : M A := λ s, (r, s, []).

Definition when (b : bool) (m : M unit) : M unit :=
  if b then m else ret tt.

(** [for x in l: body x]. *)
Fixpoint for_each {A} (l : list A) (body : A → M unit) : M unit :=
  match l with
  | [] => ret tt
  | x :: rest => body x ;; for_each rest body
  end.

(** [[f(x) for x in l]], stopping at the first exception. *)
Fixpoint map_result {A B} (f : A → result B) (l : list A) : result (list B) :=
  match l with
  | [] => Ok []
  | x :: rest =>
      match f x with
      | Raise e => Raise e
      | Ok b =>
          match map_result f rest with
          | Raise e => Raise e
          | Ok bs => Ok (b :: bs)
          end
      end
  end.

(** ** [__init__] *)

(** [d[key] = value] on a dict kept in insertion order. *)
Fixpoint dict_set (key value : string) (d : list (string * string))
  : list (string * string) :=
  match d with
  | [] => [(key, value)]
  | (k, v) :: rest =>
      if decide (k = key) then (k, value) :: rest
      else (k, v) :: dict_set key value rest
  end.

(** The loop over [column_descriptions.items()]: the dict itself (shared
    with the caller and with [self.column_descriptions]) gets lowercased
    roles; the last [output] key and all [date] keys are recorded. *)
Definition init_columns (items : list (string * string))
  : list (string * string) * option string * list string :=
  fold_left
    (λ '(cd, out, dates) '(key, value),
       let value := lower value in
       let cd := dict_set key value cd in
       if decide (value = "output") then (cd, Some key, dates)
       else if decide (value = "date") then (cd, out, dates ++ [key])
       else (cd, out, dates))
    items (items, None, []).

Definition new_predictor (kind : string) (cols : list (string * string))
    (verbose : bool) : Predictor :=
  let '(cd, out, dates) := init_columns cols in
  {| type_of_estimator := kind;
     column_descriptions := cd;
     verbose := verbose;
     trained_pipeline := None;
     _scorer := None;
     date_cols := dates;
     took_log_of_y := false;
     grid_search_pipelines := Some [];
     output_column := out;
     write_gs_param_results_to_file := None;
     compute_power := None;
     ml_for_analytics := None;
     only_analytics := None;
     X_test := None;
     y_test := None;
     print_training_summary_to_viewer := None;
     take_log_of_y := None;
     gs_param_file_name := None;
     grid_search_params := None |}.

(** [Predictor(type_of_estimator, column_descriptions, verbose)]: the new
    instance or the exception, and what was printed. *)
Definition __init__ (type_of_estimator : string)
    (column_descriptions : list (string * string)) (verbose : bool)
  : result Predictor * list event :=
  if str_in (lower type_of_estimator) regressor_synonyms then
    (Ok (new_predictor "regressor" column_descriptions verbose), [])
  else if str_in (lower type_of_estimator) classifier_synonyms then
    (Ok (new_predictor "classifier" column_descriptions verbose), [])
  else
    (Raise (ValueError (invalid_type_msg type_of_estimator)),
     [EPrint (PText (invalid_type_msg type_of_estimator))]).

(** ** [_construct_pipeline] *)

Definition _construct_pipeline (self : Predictor)
    (user_input_func : option UserFunc) (model_name : string)
    (optimize_final_model perform_feature_selection impute_missing_values
     ml_for_analytics perform_feature_scaling : bool) : Pipeline :=
  let pipeline_list : Pipeline := [] in
  let pipeline_list :=
    match user_input_func with
    | Some func =>
        pipeline_list ++ [("user_func", FunctionTransformer func false false)]
    | None => pipeline_list
    end in
  let pipeline_list :=
    if bool_decide (0 < length (date_cols self))%nat then
      pipeline_list ++
        [("date_feature_engineering", FeatureEngineer (date_cols self))]
    else pipeline_list in
  let pipeline_list :=
    pipeline_list ++
      [("basic_transform", BasicDataCleaning (column_descriptions self))] in
  let pipeline_list :=
    if perform_feature_scaling then
      pipeline_list ++
        [("scaler", CustomSparseScaler (column_descriptions self))]
    else pipeline_list in
  let pipeline_list := pipeline_list ++ [("dv", DictVectorizer true)] in
  let pipeline_list :=
    if perform_feature_selection then
      pipeline_list ++
        [("feature_selection",
          FeatureSelectionTransformer (type_of_estimator self)
            "SelectFromModel")]
    else pipeline_list in
  pipeline_list ++
    [("final_model",
      FinalModelATC model_name optimize_final_model (type_of_estimator self)
        ml_for_analytics)].

(** ** [_get_estimator_names]

    The classifier branch reads the bare name [compute_power], which is
    bound neither locally nor in the module. *)

Definition _get_estimator_names : M (list string) :=
  ty ← read type_of_estimator;
  if decide (ty = "regressor") then
    let base_estimators := ["Ridge"; "XGBRegressor"] in
    cp ← getattr "compute_power" compute_power;
    if cp <? 7 then ret base_estimators
    else
      ret (base_estimators ++
           ["RANSACRegressor"; "RandomForestRegressor"; "LinearRegression";
            "AdaBoostRegressor"; "ExtraTreesRegressor"])
  else if decide (ty = "classifier") then
    let base_estimators := ["RidgeClassifier"; "XGBClassifier"] in
    cp ← raise (NameError "compute_power");
    if (cp : Z) <? 7 then ret base_estimators
    else
      ret (base_estimators ++
           ["LogisticRegression"; "RandomForestClassifier"])
  else
    (* [raise('...')]: a string is not an exception *)
    raise (TypeError "exceptions must derive from BaseException").

(** ** [_construct_pipeline_search_params] *)

(** Truth value of an argument that is [None] or a list: the list when it
    is not empty. *)
Definition truthy_list {A} (arg : option (list A)) : option (list A) :=
  match arg with
  | Some (x :: l) => Some (x :: l)
  | _ => None
  end.

Definition _construct_pipeline_search_params
    (optimize_entire_pipeline optimize_final_model ml_for_analytics
     perform_feature_selection : bool)
    (user_defined_model_names : option (list string)) : M ParamGrid :=
  let gs_params : ParamGrid := ∅ in
  inner ← (if optimize_final_model then ret true
           else cp ← getattr "compute_power" compute_power; ret (5 <=? cp));
  let gs_params :=
    if inner : bool then
      <["final_model__perform_grid_search_on_model" :=
          [PBool true; PBool false]]> gs_params
    else gs_params in
  cp ← getattr "compute_power" compute_power;
  let gs_params :=
    if 3 <=? cp then
      <["scaler__truncate_large_values" := [PBool true; PBool false]]>
        gs_params
    else gs_params in
  model_names ←
    match truthy_list user_defined_model_names with
    | Some names => ret names
    | None => _get_estimator_names
    end;
  let gs_params :=
    <["final_model__model_name" := PStr <$> model_names]> gs_params in
  cp ← getattr "compute_power" compute_power;
  let gs_params :=
    if 10 <=? cp then
      <["feature_selection__feature_selection_model" :=
          [PStr "SelectFromModel"; PStr "GenericUnivariateSelect";
           PStr "KeepAll"; PStr "RFECV"]]> gs_params
    else gs_params in
  ret gs_params.

(** ** [_prepare_for_training] *)

(** Modelled from the spec: [utils.split_output] is not among the files of
    this module.  The spec has the training records split into feature
    records and a parallel target sequence by removing the output column;
    a record without that column ends the call with [KeyError]. *)
Definition split_output (raw_training_data : list Row)
    (output_column : string) : result (list Row * list value) :=
  match
    map_result
      (λ row : Row,
         match row !! output_column with
         | Some v => Ok (delete output_column row, v)
         | None => Raise (KeyError output_column)
         end)
      raw_training_data
  with
  | Ok pairs => Ok (pairs.*1, pairs.*2)
  | Raise e => Raise e
  end.

(** [enumerate(l)], counting from [i]. *)
Fixpoint enumerate_from {A} (i : nat) (l : list A) : list (nat * A) :=
  match l with
  | [] => []
  | x :: rest => (i, x) :: enumerate_from (S i) rest
  end.

Definition enumerate {A} (l : list A) : list (nat * A) := enumerate_from 0 l.

(** The classifier branch: one [try] around the whole loop, so either
    every value becomes an [int] or [y] stays as it was. *)
Definition clean_y_classifier (y : list value) : list value :=
  match mapM builtin_int y with
  | Some y_ints => VInt <$> y_ints
  | None => y
  end.

(** The regression loop, one [try] per value: the state is
    [(indices_to_delete, y_floats, bad_vals)]. *)
Definition float_step (acc : list nat * list float * list value)
    (iv : nat * value) : list nat * list float * list value :=
  let '(indices_to_delete, y_floats, bad_vals) := acc in
  let '(idx, val) := iv in
  match builtin_float val with
  | Some float_val => (indices_to_delete, y_floats ++ [float_val], bad_vals)
  | None => (indices_to_delete ++ [idx], y_floats, bad_vals ++ [val])
  end.

Definition scan_floats (y : list value)
  : list nat * list float * list value :=
  fold_left float_step (enumerate y) ([], [], []).

(** [[row for idx, row in enumerate(X) if idx not in indices_to_delete]]. *)
Definition drop_rows (indices_to_delete : gset nat) (X : list Row)
  : list Row :=
  (filter (λ ir : nat * Row, ir.1 ∉ indices_to_delete) (enumerate X)).*2.

Definition gs_results_file : string :=
  "most_recent_pipeline_grid_search_result.csv".

Definition _prepare_for_training (raw_training_data : list Row)
  : M (list Row * list value) :=
  to_file ← getattr "write_gs_param_results_to_file"
              write_gs_param_results_to_file;
  when to_file
    (assign (set_gs_param_file_name (Some gs_results_file));;
     emit (ERemove gs_results_file));;
  out ← getattr "output_column" output_column;
  '(X, y) ← lift (split_output raw_training_data out);
  ty ← read type_of_estimator;
  if decide (ty = "classifier") then
    ret (X, clean_y_classifier y)
  else
    let '(indices_to_delete, y_floats, bad_vals) := scan_floats y in
    let y := VFloat <$> y_floats in
    if bool_decide (0 < length indices_to_delete)%nat then
      print (PText "The y values given included some bad values that the machine learning algorithms will not be able to train on.");;
      print (PText "The rows at these indices have been deleted because their y value could not be turned into a float:");;
      print (PIndices indices_to_delete);;
      print (PText "These were the bad values");;
      print (PValues bad_vals);;
      let indices_to_delete : gset nat := list_to_set indices_to_delete in
      ret (drop_rows indices_to_delete X, y)
    else
      ret (X, y).

(** ** Reports *)

Definition no_pipeline {A} (attr : string) : M A :=
  (* [self.trained_pipeline] is still [None] *)
  raise (AttributeError attr).

Definition _print_ml_analytics_results_regression : M unit :=
  tp ← read trained_pipeline;
  match tp with
  | None => no_pipeline "named_steps"
  | Some pipeline =>
      ty ← read type_of_estimator;
      print_all (ml_analytics_regression pipeline ty).1;;
      lift (ml_analytics_regression pipeline ty).2
  end.

Definition _print_ml_analytics_results_random_forest : M unit :=
  tp ← read trained_pipeline;
  match tp with
  | None => no_pipeline "named_steps"
  | Some pipeline =>
      print_all (ml_analytics_random_forest pipeline).1;;
      lift (ml_analytics_random_forest pipeline).2
  end.

Definition print_training_summary (gs : FittedSearch) : M unit :=
  print (PText "The best CV score from GridSearchCV (most likely averaging across k-fold CV) is:");;
  took ← read took_log_of_y;
  when took
    (print (PText "    Note that this score is calculated using the natural logs of the y values."));;
  print (PFloat (best_score_ gs));;
  print (PText "The best params were");;
  print (PParams (best_params_ gs)).

(** ** [score] *)

Definition score (X_test : list Row) (y_test : list value) : M float :=
  sc ← read _scorer;
  tp ← read trained_pipeline;
  match sc with
  | Some scorer =>
      took ← read took_log_of_y;
      match tp with
      | Some pipeline => lift (scorer_call scorer pipeline X_test y_test took)
      | None => no_pipeline "predict"
      end
  | None =>
      match tp with
      | Some pipeline => lift (pipeline_score pipeline X_test y_test)
      | None => no_pipeline "score"
      end
  end.

(** ** [perform_grid_search_by_model_names] *)

Definition linear_families : list string :=
  ["LogisticRegression"; "RidgeClassifier"; "LinearRegression"; "Ridge"].

Definition tree_families : list string :=
  ["RandomForestClassifier"; "RandomForestRegressor"; "XGBClassifier";
   "XGBRegressor"].

Definition stars : string :=
  "********************************************************************************************".

(** The holdout score of the pipeline just fitted, when both [self.X_test]
    and [self.y_test] are given and not empty. *)
Definition score_holdout : M (option float) :=
  xt ← getattr "X_test" X_test;
  match truthy_list xt with
  | None => ret None
  | Some X_t =>
      yt ← getattr "y_test" y_test;
      match truthy_list yt with
      | None => ret None
      | Some y_t =>
          print (PText "The results from the X_test and y_test data passed into ml_for_analytics (which were not used for training- true holdout data) are:");;
          holdout_data_score ← score X_t y_t;
          print (PFloat holdout_data_score);;
          ret (Some holdout_data_score)
      end
  end.

(** The body of the loop, for one [model_name]. *)
Definition search_one_family (ppl : Pipeline) (scoring : Scorer)
    (X : list Row) (y : list value) (model_name : string) : M unit :=
  params ← _construct_pipeline_search_params true false false true None;
  let params := <["final_model__model_name" := [PStr model_name]]> params in
  assign (set_grid_search_params (Some params));;
  v ← read verbose;
  let grid_search_verbose := if v : bool then 5 else 0 in
  let gs :=
    {| estimator := ppl; cv := 2; param_grid := params; n_jobs := -1;
       gs_verbose := grid_search_verbose; error_score := 10;
       scoring := scoring; pre_dispatch := "1*n_jobs" |} in
  when v
    (print (PText (nl +:+ nl +:+ stars));;
     print (PText ("About to fit the GridSearchCV on the pipeline for the model " +:+ model_name)));;
  emit (EFit gs X y);;
  '(best, best_score, best_params) ← lift (gs_fit gs X y);
  let gs :=
    {| search := gs; best_estimator_ := best; best_score_ := best_score;
       best_params_ := best_params |} in
  assign (set_trained_pipeline (Some best));;
  (if str_in model_name linear_families then
     _print_ml_analytics_results_regression
   else if str_in model_name tree_families then
     _print_ml_analytics_results_random_forest
   else ret tt);;
  to_file ← getattr "write_gs_param_results_to_file"
              write_gs_param_results_to_file;
  when to_file
    (file ← getattr "gs_param_file_name" gs_param_file_name;
     emit (EWrite file);;
     lift (utils_write_gs_param_results_to_file gs file));;
  holdout ← score_holdout;
  summary ← getattr "print_training_summary_to_viewer"
              print_training_summary_to_viewer;
  when summary (print_training_summary gs);;
  results ← getattr "grid_search_pipelines" grid_search_pipelines;
  assign (set_grid_search_pipelines
            (Some (results ++
                   [{| holdout_data_score := holdout;
                       cv_score := best_score;
                       fitted_search := gs |}]))).

Definition perform_grid_search_by_model_names (estimator_names : list string)
    (ppl : Pipeline) (scoring : Scorer) (X : list Row) (y : list value)
  : M unit :=
  for_each estimator_names (search_one_family ppl scoring X y).

(** ** [train] *)

(** [sorted(l, key=key, reverse=True)]: descending and stable, an element
    goes behind every element that is not smaller. *)
Fixpoint insert_desc {A} (key : A → float) (x : A) (l : list A) : list A :=
  match l with
  | [] => [x]
  | h :: t =>
      if float_lt (key h) (key x) then x :: h :: t
      else h :: insert_desc key x t
  end.

Definition sorted_reverse {A} (key : A → float) (l : list A) : list A :=
  fold_left (λ acc x, insert_desc key x acc) l [].

(** The keyword arguments of [train]. *)
Record train_kwargs : Type := mkKwargs {
  kw_user_input_func : option UserFunc;
  kw_optimize_entire_pipeline : bool;
  kw_optimize_final_model : bool;
  kw_write_gs_param_results_to_file : bool;
  kw_perform_feature_selection : bool;
  kw_verbose : bool;
  kw_X_test : option (list Row);
  kw_y_test : option (list value);
  kw_print_training_summary_to_viewer : bool;
  kw_ml_for_analytics : bool;
  kw_only_analytics : bool;
  kw_compute_power : Z;
  kw_take_log_of_y : bool;
  kw_model_names : option (list string);
}.

(** Their defaults in the signature. *)
Definition default_kwargs : train_kwargs :=
  {| kw_user_input_func := None;
     kw_optimize_entire_pipeline := false;
     kw_optimize_final_model := false;
     kw_write_gs_param_results_to_file := true;
     kw_perform_feature_selection := true;
     kw_verbose := true;
     kw_X_test := None;
     kw_y_test := None;
     kw_print_training_summary_to_viewer := true;
     kw_ml_for_analytics := true;
     kw_only_analytics := false;
     kw_compute_power := 3;
     kw_take_log_of_y := true;
     kw_model_names := None |}.

(** [train] up to and including the per-family searches. *)
Definition train_and_search (raw_training_data : list Row)
    (kw : train_kwargs) : M unit :=
  assign (set_write_gs_param_results_to_file
            (Some (kw_write_gs_param_results_to_file kw)));;
  assign (set_compute_power (Some (kw_compute_power kw)));;
  assign (set_ml_for_analytics (Some (kw_ml_for_analytics kw)));;
  assign (set_only_analytics (Some (kw_only_analytics kw)));;
  assign (set_X_test (Some (kw_X_test kw)));;
  assign (set_y_test (Some (kw_y_test kw)));;
  assign (set_print_training_summary_to_viewer
            (Some (kw_print_training_summary_to_viewer kw)));;
  ty ← read type_of_estimator;
  when (bool_decide (ty = "regressor"))
    (assign (set_take_log_of_y (Some (kw_take_log_of_y kw))));;
  when (kw_verbose kw)
    (print (PText "Welcome to auto_ml! We're about to go through and make sense of your data using machine learning"));;
  '(X, y) ← _prepare_for_training raw_training_data;
  take_log ← getattr "take_log_of_y" take_log_of_y;
  y ← (if take_log : bool then
         logs ← lift (map_result math_log y);
         assign (set_took_log_of_y true);;
         ret (VFloat <$> logs)
       else ret y);
  when (kw_verbose kw)
    (print (PText "Successfully performed basic preparations and y-value cleaning"));;
  for_analytics ← getattr "ml_for_analytics" ml_for_analytics;
  self ← read id;
  let ppl :=
    _construct_pipeline self (kw_user_input_func kw) "LogisticRegression"
      (kw_optimize_final_model kw) (kw_perform_feature_selection kw) true
      for_analytics true in
  when (kw_verbose kw) (print (PText "Successfully constructed the pipeline"));;
  estimator_names ←
    match truthy_list (kw_model_names kw) with
    | Some names => ret names
    | None => _get_estimator_names
    end;
  ty ← read type_of_estimator;
  let scoring :=
    if decide (ty = "classifier") then brier_scorer else rmse_scoring in
  assign (set_scorer (Some scoring));;
  when (kw_verbose kw) (print (PText "Created estimator_names and scoring"));;
  perform_grid_search_by_model_names estimator_names ppl scoring X y.

(** The end of [train]: the entry with the greatest [x[0]] gives the
    retained pipeline, and the list of entries is deleted. *)
Definition select_best : M unit :=
  results ← getattr "grid_search_pipelines" grid_search_pipelines;
  let sorted_gs_pipeline_results := sorted_reverse first_score results in
  match sorted_gs_pipeline_results with
  | [] => raise (IndexError "list index out of range")
  | best_result_list :: _ =>
      let best_trained_gs := fitted_search best_result_list in
      assign (set_trained_pipeline (Some (best_estimator_ best_trained_gs)));;
      assign (set_grid_search_pipelines None)
  end.

Definition train (raw_training_data : list Row) (kw : train_kwargs)
  : M unit :=
  train_and_search raw_training_data kw;;
  select_best.

(** ** [predict] and [predict_proba]

    The output of the pipeline is treated as a Python sequence that is
    indexed and assigned by position. *)

(** [idx, val = item]. *)
Definition unpack_pair (item : pred_item) : result (value * value) :=
  match item with
  | Items [a; b] => Ok (a, b)
  | Items _ => Raise (ValueError "wrong number of values to unpack")
  | Scalar (VStr (String a (String b EmptyString))) =>
      Ok (VStr (String a EmptyString), VStr (String b EmptyString))
  | Scalar (VStr _) => Raise (ValueError "wrong number of values to unpack")
  | Scalar _ => Raise (TypeError "object is not iterable")
  end.

(** [seq[idx] = x]: [idx] has to be an integer within the sequence, a
    negative one counting from the end. *)
Definition setitem (vals : list pred_item) (idx : value) (x : pred_item)
  : result (list pred_item) :=
  let at_int (i : Z) :=
    let len := Z.of_nat (length vals) in
    let pos := if i <? 0 then i + len else i in
    if (0 <=? pos) && (pos <? len) then Ok (<[Z.to_nat pos := x]> vals)
    else Raise (IndexError "index out of range") in
  match idx with
  | VInt i => at_int i
  | VBool b => at_int (if b then 1 else 0)
  | _ => Raise (TypeError "indices must be integers")
  end.

(** [for idx, val in predicted_vals: predicted_vals[idx] = math.exp(val)],
    from position [i] on, with [n] positions left. *)
Fixpoint exp_loop (n i : nat) (predicted_vals : list pred_item)
  : result (list pred_item) :=
  match n with
  | O => Ok predicted_vals
  | S n =>
      match predicted_vals !! i with
      | None => Ok predicted_vals
      | Some item =>
          '(idx, val) ← unpack_pair item;
          e ← math_exp val;
          predicted_vals ← setitem predicted_vals idx (Scalar (VFloat e));
          exp_loop n (S i) predicted_vals
      end
  end.

Definition predict (prediction_data : list Row) : M (list pred_item) :=
  tp ← read trained_pipeline;
  match tp with
  | None => no_pipeline "predict"
  | Some pipeline =>
      predicted_vals ← lift (pipeline_predict pipeline prediction_data);
      took ← read took_log_of_y;
      if took : bool then
        lift (exp_loop (length predicted_vals) 0 predicted_vals)
      else ret predicted_vals
  end.

Definition predict_proba (prediction_data : list Row)
  : M (list pred_item) :=
  tp ← read trained_pipeline;
  match tp with
  | None => no_pipeline "predict_proba"
  | Some pipeline => lift (pipeline_predict_proba pipeline prediction_data)
  end.

End Model.

(** ** A small environment to run the model on

    Floats are whole numbers, so that everything computes; logarithm and
    exponential are taken to base 2 to stay whole.  A fit returns the
    name of the family it was asked to search as the fitted pipeline, with
    scores read from two tables. *)

Module Demo.

Fixpoint digits (s : string) (acc : Z) : option Z :=
  match s with
  | EmptyString => Some acc
  | String c rest =>
      let n := N_of_ascii c in
      if ((48 <=? n) && (n <=? 57))%N
      then digits rest (10 * acc + Z.of_N (n - 48))
      else None
  end.

Definition number_of_string (s : string) : option Z :=
  match s with
  | EmptyString => None
  | _ => digits s 0
  end.

Definition to_number (v : PyVal Z) : option Z :=
  match v with
  | VNone => None
  | VBool b => Some (if b then 1 else 0)
  | VInt n => Some n
  | VFloat x => Some x
  | VStr s => number_of_string s
  end.

Definition log_of (v : PyVal Z) : result Z :=
  match v with
  | VInt x | VFloat x =>
      if x <=? 0 then Raise (ValueError "math domain error")
      else Ok (Z.log2 x)
  | _ => Raise (TypeError "a float is required")
  end.

Definition exp_of (v : PyVal Z) : result Z :=
  match v with
  | VInt x | VFloat x => Ok (2 ^ x)
  | _ => Raise (TypeError "a float is required")
  end.

Program Definition runtime : PyRuntime :=
  {| float := Z;
     float_zero := 0;
     float_lt := Z.ltb;
     float_le := Z.leb;
     builtin_float := to_number;
     builtin_int := to_number;
     math_log := log_of;
     math_exp := exp_of |}.
Next Obligation. intros x y. simpl. lia. Qed.
Next Obligation. intros x. simpl. lia. Qed.
Next Obligation. intros x y z. simpl. lia. Qed.
Next Obligation. intros x y z. simpl. lia. Qed.
Next Obligation. intros x H. simpl in *. by rewrite H. Qed.
Next Obligation. intros x H. simpl in *. by rewrite H. Qed.

Definition types : MLTypes := {| UserFunc := unit; Fitted := string |}.

Definition family_axis : string := "final_model__model_name".

Definition fit_family (cv_of : string → Z) (gs : @GridSearchCV types)
  : result (string * Z * gmap string param) :=
  match param_grid gs !! family_axis with
  | Some [PStr name] => Ok (name, cv_of name, {[family_axis := PStr name]})
  | _ => Raise (LibraryError "no estimator family to search")
  end.

Definition flat_zeros {A} (rows : list A) : list (@pred_item runtime) :=
  (λ _, @Scalar runtime (VFloat 0)) <$> rows.

Definition library (cv_of holdout_of : string → Z)
  : @MLLibrary runtime types :=
  @Build_MLLibrary runtime types
    (λ gs _ _, fit_family cv_of gs)
    (λ _ fitted _ _ _, Ok (holdout_of fitted))
    (λ fitted _ _, Ok (holdout_of fitted))
    (λ _ rows, Ok (flat_zeros rows))
    (λ _ _, Raise (AttributeError "predict_proba"))
    (λ _ _, ([], Ok tt))
    (λ _, ([], Ok tt))
    (λ _ _, Ok tt).

(** Two families tie on the holdout score and differ on the
    cross-validation score. *)
Definition cv_table (name : string) : Z :=
  if decide (name = "Ridge") then 1 else 2.

Definition holdout_table (name : string) : Z := 5.

Definition lib : @MLLibrary runtime types := library cv_table holdout_table.

Definition cols : list (string * string) :=
  [("y", "output"); ("signup_date", "date"); ("age", "numeric")].

Local Abbreviation record := (gmap string (PyVal (@float runtime))).

Definition row (y date age : string) : record :=
  <["y" := VStr y]>
    (<["signup_date" := VStr date]> (<["age" := VStr age]> ∅)).

Definition features (date age : string) : record :=
  <["signup_date" := VStr date]> (<["age" := VStr age]> ∅).

(** The training rows of the example in the specification. *)
Definition rows : list record :=
  [row "10" "2020-01-01" "34"; row "bad" "2020-02-01" "41"].

Definition rows_with_zero : list record :=
  [row "10" "2020-01-01" "34"; row "0" "2020-02-01" "41"].

Definition labelled_rows : list record :=
  [row "1" "2020-01-01" "34"; row "bad" "2020-02-01" "41"].

(** What [split_output] makes of them. *)
Definition feature_rows : list record :=
  [features "2020-01-01" "34"; features "2020-02-01" "41"].

Definition targets : list (PyVal (@float runtime)) :=
  [VStr "10"; VStr "bad"].

Definition targets_with_zero : list (PyVal (@float runtime)) :=
  [VStr "10"; VStr "0"].

Definition labels : list (PyVal (@float runtime)) := [VStr "1"; VStr "bad"].

Definition holdout_rows : list record := [features "2020-03-01" "29"].

Definition holdout_targets : list (PyVal (@float runtime)) := [VInt 12].

Definition regressor : @Predictor runtime types :=
  @new_predictor runtime types "regressor" cols true.

Definition classifier : @Predictor runtime types :=
  @new_predictor runtime types "classifier" cols true.

(** The receiver as [train] has it when it prepares the targets. *)
Definition configured (p : @Predictor runtime types) (power : Z)
  : @Predictor runtime types :=
  set_compute_power (Some power)
    (set_write_gs_param_results_to_file (Some true) p).

Definition holdout_kwargs : @train_kwargs runtime types :=
  {| kw_user_input_func := None;
     kw_optimize_entire_pipeline := false;
     kw_optimize_final_model := false;
     kw_write_gs_param_results_to_file := true;
     kw_perform_feature_selection := true;
     kw_verbose := false;
     kw_X_test := Some holdout_rows;
     kw_y_test := Some holdout_targets;
     kw_print_training_summary_to_viewer := false;
     kw_ml_for_analytics := true;
     kw_only_analytics := false;
     kw_compute_power := 3;
     kw_take_log_of_y := true;
     kw_model_names := None |}.

(** A receiver with everything the per-family search reads. *)
Definition searching : @Predictor runtime types :=
  set_print_training_summary_to_viewer (Some false)
    (set_y_test (Some None)
       (set_X_test (Some None)
          (set_write_gs_param_results_to_file (Some false)
             (configured regressor 3)))).

(** A regressor that was trained on logarithms and retained [Ridge]. *)
Definition trained : @Predictor runtime types :=
  set_took_log_of_y true
    (set_trained_pipeline (Some ("Ridge" : @Fitted types)) regressor).



Definition two_rows : list record :=
  [row "10" "2020-01-01" "34"; row "20" "2020-02-01" "41"].




(** Column descriptions with roles in mixed case. *)
Definition mixed_case_cols : list (string * string) :=
  [("y", "Output"); ("signup_date", "DATE"); ("age", "Numeric")].

(** A regressor none of whose columns is the output. *)
Definition no_output : @Predictor runtime types :=
  @new_predictor runtime types "regressor"
    [("signup_date", "date"); ("age", "numeric")] true.

(** The targets of [two_rows]. *)
Definition clean_targets : list (PyVal (@float runtime)) :=
  [VStr "10"; VStr "20"].

End Demo.
(** * Vocabulary of the statements *)

Section Vocabulary.
Context `{RT : PyRuntime} `{MT : MLTypes} {ML : @MLLibrary RT MT}.

Local Abbreviation value := (PyVal float).
Local Abbreviation Row := (gmap string (PyVal float)).
Local Abbreviation ParamGrid := (gmap string (list param)).

(** [wp m s Q]: the outcome of running [m] on [s] satisfies [Q]. *)
Definition wp {A} (m : M A) (s : Predictor)
    (Q : result A → Predictor → list event → Prop) : Prop :=
  Q (m s).1.1 (m s).1.2 (m s).2.

(** The four axes of the search space. *)
Definition axis_inner : string := "final_model__perform_grid_search_on_model".

Definition axis_scaler : string := "scaler__truncate_large_values".

Definition axis_family : string := "final_model__model_name".

Definition axis_selection : string :=
  "feature_selection__feature_selection_model".

(** What [_get_estimator_names] returns on a regressor. *)
Definition regressor_names (cp : Z) : list string :=
  if cp <? 7 then ["Ridge"; "XGBRegressor"]
  else ["Ridge"; "XGBRegressor"; "RANSACRegressor"; "RandomForestRegressor";
        "LinearRegression"; "AdaBoostRegressor"; "ExtraTreesRegressor"].

(** The mapping [_construct_pipeline_search_params] builds for given
    names, as one expression. *)
Definition search_grid (cp : Z) (optimize_final_model : bool)
    (names : list string) : ParamGrid :=
  (if 10 <=? cp
   then <[axis_selection :=
            [PStr "SelectFromModel"; PStr "GenericUnivariateSelect";
             PStr "KeepAll"; PStr "RFECV"]]>
   else id)
    (<[axis_family := PStr <$> names]>
       ((if 3 <=? cp
         then <[axis_scaler := [PBool true; PBool false]]>
         else id)
          ((if (if optimize_final_model then true else 5 <=? cp)
            then <[axis_inner := [PBool true; PBool false]]>
            else id) ∅))).

(** Where the searched names come from: the argument when it is given,
    [_get_estimator_names] otherwise. *)
Definition names_source (s : Predictor) (cp : Z)
    (user_defined_model_names : option (list string)) (names : list string)
  : Prop :=
  truthy_list user_defined_model_names = Some names
  ∨ (truthy_list user_defined_model_names = None
     ∧ type_of_estimator s = "regressor" ∧ names = regressor_names cp).

(** Every event but a [gs.fit]. *)
Definition not_fit (e : event) : Prop :=
  match e with EFit _ _ _ => False | _ => True end.

(** A call that leaves the receiver as it is and fits nothing. *)
Definition reads_only {A} (m : M A) : Prop :=
  ∀ s, wp m s (λ _ s' t, s' = s ∧ Forall not_fit t).

(** The [final_model__model_name] axis a fit was given. *)
Definition searched_axis (e : event) : option (option (list param)) :=
  match e with
  | EFit gs _ _ => Some (param_grid gs !! axis_family)
  | _ => None
  end.

(** The [final_model__model_name] axis of each fit of a run, in order. *)
Definition fit_axes (t : list event) : list (option (list param)) :=
  omap searched_axis t.

(** The axis restricted to one family. *)
Definition one_family (name : string) : option (list param) :=
  Some [PStr name].

(** The attributes a search leaves alone. *)
Definition same_config (s s' : Predictor) : Prop :=
  type_of_estimator s' = type_of_estimator s
  ∧ verbose s' = verbose s
  ∧ _scorer s' = _scorer s
  ∧ took_log_of_y s' = took_log_of_y s
  ∧ write_gs_param_results_to_file s' = write_gs_param_results_to_file s
  ∧ compute_power s' = compute_power s
  ∧ X_test s' = X_test s
  ∧ y_test s' = y_test s
  ∧ print_training_summary_to_viewer s' = print_training_summary_to_viewer s
  ∧ take_log_of_y s' = take_log_of_y s
  ∧ gs_param_file_name s' = gs_param_file_name s.

(** [self.score] as [score_holdout] calls it on a fitted pipeline. *)
Definition scored (s : Predictor) (pipeline : Fitted) (X : list Row)
    (y : list value) : result float :=
  match _scorer s with
  | Some scorer => scorer_call scorer pipeline X y (took_log_of_y s)
  | None => pipeline_score pipeline X y
  end.

(** An entry carries a holdout score exactly when both holdout arguments
    are given and not empty, and it is the score of the entry's pipeline. *)
Definition holdout_ok (s : Predictor) (res : pipeline_results) : Prop :=
  ∀ xt yt, X_test s = Some xt → y_test s = Some yt →
    match truthy_list xt, truthy_list yt with
    | Some X_t, Some y_t =>
        ∃ h, holdout_data_score res = Some h
             ∧ scored s (best_estimator_ (fitted_search res)) X_t y_t = Ok h
    | _, _ => holdout_data_score res = None
    end.

(** What an entry of [self.grid_search_pipelines] records for a family. *)
Definition entry_ok (s : Predictor) (name : string)
    (res : pipeline_results) : Prop :=
  param_grid (search (fitted_search res)) !! axis_family = one_family name
  ∧ cv_score res = best_score_ (fitted_search res)
  ∧ holdout_ok s res.

(** The effect of the first lines of [_prepare_for_training]. *)
Definition file_state (to_file : bool) (s : Predictor) : Predictor :=
  if to_file then set_gs_param_file_name (Some gs_results_file) s else s.

(** The events of those lines. *)
Definition file_trace (to_file : bool) : list event :=
  if to_file then [ERemove gs_results_file] else [].

(** What the regression branch prints when it drops rows. *)
Definition bad_report (idxs : list nat) (vals : list value) : list event :=
  [EPrint (PText "The y values given included some bad values that the machine learning algorithms will not be able to train on.");
   EPrint (PText "The rows at these indices have been deleted because their y value could not be turned into a float:");
   EPrint (PIndices idxs);
   EPrint (PText "These were the bad values");
   EPrint (PValues vals)].

(** The head of the sorted list, kept while the entries are inserted. *)
Definition better {A} (key : A → float) (best : option A) (x : A)
  : option A :=
  match best with
  | None => Some x
  | Some h => if float_lt (key h) (key x) then Some x else Some h
  end.

(** [best] is the first entry of [l] with the greatest key. *)
Definition first_greatest {A} (key : A → float) (l : list A) (best : A)
  : Prop :=
  ∃ before after,
    l = before ++ best :: after
    ∧ (∀ r, r ∈ before → float_lt (key r) (key best) = true)
    ∧ (∀ r, r ∈ l → float_lt (key best) (key r) = false).

(** The families a [train] call searches. *)
Definition requested_families (kw : train_kwargs) (names : list string)
  : Prop :=
  truthy_list (kw_model_names kw) = Some names
  ∨ (truthy_list (kw_model_names kw) = None
     ∧ names = regressor_names (kw_compute_power kw)).

(** What [train] records for a family on a regressor: the search was
    restricted to the family, the second score is the cross-validation
    best score, and a holdout score is there exactly when both holdout
    arguments are given and not empty: the score of the family's best
    pipeline on them. *)
Definition entry_for (s : Predictor) (kw : train_kwargs) (name : string)
    (res : pipeline_results) : Prop :=
  param_grid (search (fitted_search res)) !! axis_family = one_family name
  ∧ cv_score res = best_score_ (fitted_search res)
  ∧ match truthy_list (kw_X_test kw), truthy_list (kw_y_test kw) with
    | Some X_t, Some y_t =>
        ∃ h, holdout_data_score res = Some h
             ∧ scorer_call rmse_scoring (best_estimator_ (fitted_search res))
                 X_t y_t (kw_take_log_of_y kw || took_log_of_y s) = Ok h
    | _, _ => holdout_data_score res = None
    end.

(** The column descriptions with every role lowercased. *)
Definition lower_roles (cols : list (string * string))
  : list (string * string) :=
  (λ kv, (kv.1, lower kv.2)) <$> cols.

(** The keys whose lowercased role is [role], in order. *)
Definition keys_with_role (role : string) (cols : list (string * string))
  : list string :=
  (filter (λ kv, lower kv.2 = role) cols).*1.


(** What [__init__] records about the task: these attributes have no
    assignment outside it. *)
Definition constructor_attributes (s : Predictor)
  : string * list (string * string) * bool * list string * option string :=
  (type_of_estimator s, column_descriptions s, verbose s, date_cols s,
   output_column s).

(** A call that leaves [f] of the receiver as it is, whatever its
    outcome. *)
Definition keeps {A B} (f : Predictor → B) (m : M A) : Prop :=
  ∀ s, wp m s (λ _ s' _, f s' = f s).

End Vocabulary.

(** * The claims that fail, as they are stated *)

Section Stated.
Context `{RT : PyRuntime} `{MT : MLTypes} {ML : @MLLibrary RT MT}.





(** Each target value on its own: an [int] when it coerces, itself when
    it does not. *)
Definition coerced_per_record (y y' : list (PyVal float)) : Prop :=
  Forall2
    (λ v v', v' = match builtin_int v with Some n => VInt n | None => v end)
    y y'.

End Stated.


(** Classification targets are coerced value by value. *)
Definition classifier_targets_coerced_per_record : Prop :=
  ∀ (RT : PyRuntime) (MT : MLTypes) (ML : @MLLibrary RT MT)
    (s : Predictor) (raw : list (gmap string (PyVal float)))
    (to_file : bool) (out : string)
    (X : list (gmap string (PyVal float))) (y : list (PyVal float)),
    type_of_estimator s = "classifier" →
    write_gs_param_results_to_file s = Some to_file →
    output_column s = Some out →
    split_output raw out = Ok (X, y) →
    ∃ y' s' t,
      _prepare_for_training raw s = (Ok (X, y'), s', t)
      ∧ coerced_per_record y y'.

(** Every [train] on a classifier as constructed ends with the unbound
    name [compute_power]. *)
Definition classifier_train_raises_name_error : Prop :=
  ∀ (RT : PyRuntime) (MT : MLTypes) (ML : @MLLibrary RT MT)
    (cols : list (string * string)) (verbose : bool)
    (raw : list (gmap string (PyVal float))) (kw : train_kwargs),
    ∃ s' t,
      train raw kw (new_predictor "classifier" cols verbose)
      = (Raise (NameError "compute_power"), s', t).

(** * Properties *)

Section Properties.
Context `{RT : PyRuntime} `{MT : MLTypes} {ML : @MLLibrary RT MT}.

Local Abbreviation value := (PyVal float).
Local Abbreviation Row := (gmap string (PyVal float)).
Local Abbreviation ParamGrid := (gmap string (list param)).

#[local] Existing Instances M_ret M_bind.

Lemma new_predictor_kind (kind : string) cols v :
  type_of_estimator (new_predictor kind cols v) = kind.
Proof. unfold new_predictor. by destruct (init_columns cols) as [[??]?]. Qed.

(** C6. For every estimator-kind string, construction has one of three
    outcomes and no other: the lowercased string is a regressor synonym
    and the stored type is exactly [regressor]; it is a classifier synonym
    and the stored type is exactly [classifier]; or it is in neither set
    and construction ends with [ValueError]. *)
Theorem init_kind_normalized_or_rejected
    (kind : string) (cols : list (string * string)) (v : bool) :
  (lower kind ∈ regressor_synonyms ∧
     (∃ p, __init__ kind cols v = (Ok p, []) ∧
           type_of_estimator p = "regressor"))
  ∨ (lower kind ∈ classifier_synonyms ∧
     (∃ p, __init__ kind cols v = (Ok p, []) ∧
           type_of_estimator p = "classifier"))
  ∨ ((lower kind ∉ regressor_synonyms) ∧ (lower kind ∉ classifier_synonyms) ∧
     __init__ kind cols v =
       (Raise (ValueError (invalid_type_msg kind)),
        [EPrint (PText (invalid_type_msg kind))])).
Proof.
  unfold __init__, str_in.
  repeat case_bool_decide.
  - left. split; [done|]. eexists. split; [done|]. apply new_predictor_kind.
  - right; left. split; [done|]. eexists. split; [done|]. apply new_predictor_kind.
  - right; right. done.
Qed.

Ltac solve_sublist :=
  repeat first [ apply sublist_nil | apply sublist_skip | apply sublist_cons ].

Ltac solve_names :=
  repeat match goal with
  | |- _ ∧ _ => split
  | |- _ ↔ _ => split
  | |- _ => compute_done
  | |- ∀ _, _ => intro
  | |- _ → _ => intro
  end;
  simplify_eq/=;
  try done;
  try solve_sublist;
  try compute_done.

(** C8. For every combination of the switches and the optional user
    transform, the stages [basic_transform], [dv] and [final_model] are
    there in that order and [final_model] is the last stage; [user_func] is
    first when a transform is given (and absent otherwise); the date stage
    is there exactly when a date column is registered; the scaler and the
    feature selection are there exactly when switched on, and with or
    without them the stage names are distinct and the pipeline ends in the
    final estimator. *)
Theorem construct_pipeline_stages (self : Predictor)
    (user_input_func : option UserFunc) (model_name : string)
    (optimize_final_model perform_feature_selection impute_missing_values
     for_analytics perform_feature_scaling : bool) :
  let ppl :=
    _construct_pipeline self user_input_func model_name optimize_final_model
      perform_feature_selection impute_missing_values for_analytics
      perform_feature_scaling in
  let names := ppl.*1 in
  ["basic_transform"; "dv"; "final_model"] `sublist_of` names
  ∧ last ppl =
      Some ("final_model",
            FinalModelATC model_name optimize_final_model
              (type_of_estimator self) for_analytics)
  ∧ (∀ func, user_input_func = Some func →
       head ppl = Some ("user_func", FunctionTransformer func false false))
  ∧ (user_input_func = None → "user_func" ∉ names)
  ∧ ("date_feature_engineering" ∈ names ↔ date_cols self ≠ [])
  ∧ ("scaler" ∈ names ↔ perform_feature_scaling = true)
  ∧ ("feature_selection" ∈ names ↔ perform_feature_selection = true)
  ∧ NoDup names.
Proof.
  unfold _construct_pipeline.
  destruct user_input_func as [func|], (date_cols self) as [|d ds],
    perform_feature_scaling, perform_feature_selection; simpl.
  all: solve_names.
  all: by match goal with H : _ ∈ _ |- _ =>
            apply (bool_decide_pack _) in H; vm_compute in H end.
Qed.


(** ** Running computations *)

Lemma bind_unfold {A B} (m : M A) (k : A → M B) (s : Predictor) :
  (m ≫= k) s =
    match m s with
    | (Ok a, s1, t1) =>
        match k a s1 with (r, s2, t2) => (r, s2, t1 ++ t2) end
    | (Raise e, s1, t1) => (Raise e, s1, t1)
    end.
Proof. reflexivity. Qed.

Ltac msimpl_in H :=
  cbv beta iota zeta delta
    [mbind M_bind bind mret M_ret ret read getattr raise assign emit print
     print_all lift when no_pipeline] in H.

Ltac msimpl :=
  cbv beta iota zeta delta
    [mbind M_bind bind mret M_ret ret read getattr raise assign emit print
     print_all lift when no_pipeline].

Lemma getattr_some {A} name (f : Predictor → option A) s v :
  f s = Some v → getattr name f s = (Ok v, s, []).
Proof. unfold getattr. by intros ->. Qed.

Lemma getattr_none {A} name (f : Predictor → option A) s :
  f s = None → getattr name f s = (Raise (AttributeError name), s, []).
Proof. unfold getattr. by intros ->. Qed.

Lemma wp_intro {A} (m : M A) s Q r s' t :
  m s = (r, s', t) → Q r s' t → wp m s Q.
Proof. unfold wp. intros H. by rewrite H. Qed.

Lemma wp_elim {A} (m : M A) s Q r s' t :
  wp m s Q → m s = (r, s', t) → Q r s' t.
Proof. unfold wp. intros H E. by rewrite E in H. Qed.

Lemma wp_mono {A} (m : M A) s (Q Q' : result A → Predictor → list event → Prop) :
  wp m s Q → (∀ r s' t, Q r s' t → Q' r s' t) → wp m s Q'.
Proof. unfold wp. auto. Qed.

Lemma wp_bind {A B} (m : M A) (k : A → M B) s Q :
  wp m s (λ r s1 t1,
    match r with
    | Ok a => wp (k a) s1 (λ r' s2 t2, Q r' s2 (t1 ++ t2))
    | Raise e => Q (Raise e) s1 t1
    end) →
  wp (m ≫= k) s Q.
Proof.
  unfold wp. msimpl.
  destruct (m s) as [[[a|e] s1] t1]; simpl; [|done].
  by destruct (k a s1) as [[r s2] t2].
Qed.

Lemma wp_ret {A} (a : A) s (Q : result A → Predictor → list event → Prop) :
  Q (Ok a) s [] → wp (mret a) s Q.
Proof. done. Qed.

Lemma wp_raise {A} e s (Q : result A → Predictor → list event → Prop) :
  Q (Raise e) s [] → wp (raise e) s Q.
Proof. done. Qed.

Lemma wp_read {A} (f : Predictor → A) s Q :
  Q (Ok (f s)) s [] → wp (read f) s Q.
Proof. done. Qed.

Lemma wp_getattr {A} name (f : Predictor → option A) s Q :
  match f s with
  | Some v => Q (Ok v) s []
  | None => Q (Raise (AttributeError name)) s []
  end →
  wp (getattr name f) s Q.
Proof. unfold wp, getattr. by destruct (f s). Qed.

Lemma wp_assign upd s Q : Q (Ok tt) (upd s) [] → wp (assign upd) s Q.
Proof. done. Qed.

Lemma wp_emit e s Q : Q (Ok tt) s [e] → wp (emit e) s Q.
Proof. done. Qed.

Lemma wp_print p s Q : Q (Ok tt) s [EPrint p] → wp (print p) s Q.
Proof. done. Qed.

Lemma wp_print_all ps s Q : Q (Ok tt) s (EPrint <$> ps) → wp (print_all ps) s Q.
Proof. done. Qed.

Lemma wp_lift {A} (r : result A) s Q : Q r s [] → wp (lift r) s Q.
Proof. done. Qed.

Lemma wp_when (b : bool) m s Q :
  (if b then wp m s Q else Q (Ok tt) s []) → wp (when b m) s Q.
Proof. by destruct b. Qed.

Lemma wp_when_print {B} (b : bool) p (k : unit → M B) s Q :
  wp (k tt) s (λ r s' t, Q r s' ((if b then [EPrint p] else []) ++ t)) →
  wp (when b (print p) ≫= k) s Q.
Proof.
  intros H. apply wp_bind, wp_when. destruct b; [apply wp_print|]; done.
Qed.

(** A loop keeps an invariant on the receiver and the trace so far as long
    as its body does; it ends with [Ok] after the last element or with the
    first exception. *)
Lemma wp_for_each {A} (body : A → M unit) (l : list A)
    (I : list A → Predictor → list event → Prop) Q s :
  I [] s [] →
  (∀ done x rest s1 t1, l = done ++ x :: rest → I done s1 t1 →
     wp (body x) s1 (λ r s2 t2,
       match r with
       | Ok _ => I (done ++ [x]) s2 (t1 ++ t2)
       | Raise e => Q (Raise e) s2 (t1 ++ t2)
       end)) →
  (∀ s' t, I l s' t → Q (Ok tt) s' t) →
  wp (for_each l body) s Q.
Proof.
  intros Hinit Hbody Hend.
  cut (∀ rest done s1 t1, l = done ++ rest → I done s1 t1 →
         wp (for_each rest body) s1 (λ r s2 t2, Q r s2 (t1 ++ t2))).
  { intros H. by apply (H l [] s []). }
  induction rest as [|x rest IH]; intros done s1 t1 Hl HI; simpl.
  - apply wp_ret. rewrite app_nil_r in *. subst. by apply Hend.
  - apply wp_bind. eapply wp_mono; [by eapply Hbody|].
    intros [[]|e] s2 t2 H; simpl; [|done].
    eapply wp_mono.
    + apply (IH (done ++ [x])); [|done]. by rewrite <-app_assoc.
    + intros r s3 t3. by rewrite app_assoc.
Qed.

Lemma get_estimator_names_state s r s' t :
  _get_estimator_names s = (r, s', t) → s' = s ∧ t = [].
Proof.
  unfold _get_estimator_names. msimpl.
  repeat case_decide.
  - destruct (compute_power s) as [cp|].
    + destruct (cp <? 7); intros; by simplify_eq.
    + intros; by simplify_eq.
  - intros; by simplify_eq.
  - intros; by simplify_eq.
Qed.

Lemma get_estimator_names_regressor s cp :
  type_of_estimator s = "regressor" → compute_power s = Some cp →
  _get_estimator_names s = (Ok (regressor_names cp), s, []).
Proof.
  intros Hty Hcp. unfold _get_estimator_names, regressor_names. msimpl.
  rewrite Hty. rewrite decide_True by done. msimpl. rewrite Hcp.
  by destruct (cp <? 7).
Qed.

Lemma get_estimator_names_classifier s :
  type_of_estimator s = "classifier" →
  _get_estimator_names s = (Raise (NameError "compute_power"), s, []).
Proof.
  intros Hty. unfold _get_estimator_names. msimpl.
  rewrite Hty. rewrite decide_False by done. by rewrite decide_True.
Qed.

Lemma get_estimator_names_ok s names s' t :
  _get_estimator_names s = (Ok names, s', t) →
  type_of_estimator s = "regressor" ∧
  ∃ cp, compute_power s = Some cp ∧ names = regressor_names cp.
Proof.
  unfold _get_estimator_names, regressor_names. msimpl.
  repeat case_decide; try (intros; by simplify_eq).
  destruct (compute_power s) as [cp|]; [|intros; by simplify_eq].
  intros Hrun. split; [done|]. exists cp. split; [done|].
  destruct (cp <? 7); by simplify_eq.
Qed.

Lemma search_params_ok s oe ofm mfa pfs user g s' t :
  _construct_pipeline_search_params oe ofm mfa pfs user s = (Ok g, s', t) →
  ∃ cp names, compute_power s = Some cp ∧ names_source s cp user names
    ∧ g = search_grid cp ofm names ∧ s' = s ∧ t = [].
Proof.
  unfold _construct_pipeline_search_params, names_source. intros H.
  destruct (compute_power s) as [cp|] eqn:Hcp.
  2:{ msimpl_in H. destruct ofm; rewrite Hcp in H; msimpl_in H; simplify_eq. }
  exists cp. msimpl_in H.
  assert (∀ names : list string,
    (if 10 <=? cp
     then <["feature_selection__feature_selection_model" :=
              [PStr "SelectFromModel"; PStr "GenericUnivariateSelect";
               PStr "KeepAll"; PStr "RFECV"]]>
            (<["final_model__model_name" := PStr <$> names]>
               (if 3 <=? cp
                then <["scaler__truncate_large_values" :=
                         [PBool true; PBool false]]>
                       (if (if ofm then true else 5 <=? cp)
                        then <["final_model__perform_grid_search_on_model" :=
                                 [PBool true; PBool false]]> ∅
                        else ∅)
                else (if (if ofm then true else 5 <=? cp)
                      then <["final_model__perform_grid_search_on_model" :=
                               [PBool true; PBool false]]> ∅
                      else ∅)))
     else <["final_model__model_name" := PStr <$> names]>
            (if 3 <=? cp
             then <["scaler__truncate_large_values" :=
                      [PBool true; PBool false]]>
                    (if (if ofm then true else 5 <=? cp)
                     then <["final_model__perform_grid_search_on_model" :=
                              [PBool true; PBool false]]> ∅
                     else ∅)
             else (if (if ofm then true else 5 <=? cp)
                   then <["final_model__perform_grid_search_on_model" :=
                            [PBool true; PBool false]]> ∅
                   else ∅)))
    = search_grid cp ofm names) as Hgrid.
  { intros names.
    unfold search_grid, axis_selection, axis_family, axis_scaler, axis_inner.
    by destruct ofm, (3 <=? cp), (5 <=? cp), (10 <=? cp). }
  destruct (truthy_list user) as [names|] eqn:Hu.
  - exists names. split; [done|]. split; [by left|].
    rewrite <-Hgrid.
    destruct ofm; rewrite ?Hcp in H; msimpl_in H; rewrite ?Hcp in H;
      msimpl_in H; by simplify_eq.
  - destruct (_get_estimator_names s) as [[[names|e] s1] t1] eqn:Hn.
    + pose proof (get_estimator_names_ok _ _ _ _ Hn) as (Hty&cp'&Hcp'&Hnm).
      pose proof (get_estimator_names_state _ _ _ _ Hn) as [-> ->].
      exists names. split; [done|]. split; [right; naive_solver|].
      rewrite <-Hgrid.
      destruct ofm; rewrite ?Hcp in H; msimpl_in H; rewrite ?Hn in H;
        msimpl_in H; rewrite ?Hcp in H; msimpl_in H; by simplify_eq.
    + pose proof (get_estimator_names_state _ _ _ _ Hn) as [-> ->].
      destruct ofm; rewrite ?Hcp in H; msimpl_in H; rewrite ?Hn in H;
        msimpl_in H; simplify_eq.
Qed.

Lemma search_params_run s oe ofm mfa pfs user cp names :
  compute_power s = Some cp → names_source s cp user names →
  _construct_pipeline_search_params oe ofm mfa pfs user s
  = (Ok (search_grid cp ofm names), s, []).
Proof.
  unfold _construct_pipeline_search_params, names_source. intros Hcp Hn.
  msimpl.
  destruct Hn as [Hn|(Hn&Hty&->)]; rewrite Hn;
    destruct ofm; rewrite ?Hcp; msimpl;
    rewrite ?(get_estimator_names_regressor s cp) by done;
    rewrite ?Hcp; msimpl;
    unfold search_grid, axis_selection, axis_family, axis_scaler, axis_inner;
    by destruct (3 <=? cp), (5 <=? cp), (10 <=? cp).
Qed.

Lemma search_params_state s oe ofm mfa pfs user r s' t :
  _construct_pipeline_search_params oe ofm mfa pfs user s = (r, s', t) →
  s' = s ∧ t = [].
Proof.
  unfold _construct_pipeline_search_params. intros H. msimpl_in H.
  destruct (compute_power s) as [cp|] eqn:Hcp.
  2:{ destruct ofm; rewrite ?Hcp in H; msimpl_in H; by simplify_eq. }
  destruct ofm; rewrite ?Hcp in H; msimpl_in H;
    (destruct (truthy_list user) as [names|];
     [| destruct (_get_estimator_names s) as [[[names|e] s1] t1] eqn:Hn;
        pose proof (get_estimator_names_state _ _ _ _ Hn) as [-> ->] ]);
    msimpl_in H; rewrite ?Hn in H; msimpl_in H; rewrite ?Hcp in H;
    msimpl_in H; by simplify_eq.
Qed.

Lemma search_params_classifier s oe ofm mfa pfs user cp :
  type_of_estimator s = "classifier" → compute_power s = Some cp →
  truthy_list user = None →
  _construct_pipeline_search_params oe ofm mfa pfs user s
  = (Raise (NameError "compute_power"), s, []).
Proof.
  intros Hty Hcp Hu. unfold _construct_pipeline_search_params. msimpl.
  rewrite Hu. destruct ofm; rewrite ?Hcp; msimpl;
    by rewrite get_estimator_names_classifier.
Qed.

(** C5. In a generated search space the scaler axis is there, over
    [[True, False]], exactly when compute power is at least 3; the
    inner-grid-search axis, over [[True, False]], exactly when compute
    power is at least 5 or [optimize_final_model] is set; the
    feature-selection axis exactly when compute power is at least 10. *)
Theorem search_params_axes_by_power (s : Predictor)
    (optimize_entire_pipeline optimize_final_model for_analytics
     perform_feature_selection : bool)
    (user_defined_model_names : option (list string))
    (g : ParamGrid) (s' : Predictor) (t : list event) :
  _construct_pipeline_search_params optimize_entire_pipeline
    optimize_final_model for_analytics perform_feature_selection
    user_defined_model_names s = (Ok g, s', t) →
  ∃ cp, compute_power s = Some cp
    ∧ (g !! axis_scaler = Some [PBool true; PBool false] ↔ 3 ≤ cp)
    ∧ (g !! axis_scaler = None ↔ cp < 3)
    ∧ (g !! axis_inner = Some [PBool true; PBool false]
         ↔ (5 ≤ cp ∨ optimize_final_model = true))
    ∧ (g !! axis_inner = None ↔ (cp < 5 ∧ optimize_final_model = false))
    ∧ (is_Some (g !! axis_selection) ↔ 10 ≤ cp).
Proof.
  intros H. apply search_params_ok in H as (cp&names&Hcp&_&->&_&_).
  exists cp. split; [done|]. unfold search_grid.
  destruct (Z.leb_spec 3 cp), (Z.leb_spec 5 cp), (Z.leb_spec 10 cp),
    optimize_final_model; try lia.
  all: unfold axis_scaler, axis_inner, axis_family, axis_selection, id.
  all: repeat split; intros; simplify_map_eq; try lia; try done; try naive_solver.
Qed.


(** ** Calls that only read the receiver and fit nothing *)

Lemma rp_bind {A B} (m : M A) (k : A → M B) :
  reads_only m → (∀ a, reads_only (k a)) →
  reads_only (m ≫= k).
Proof.
  intros Hm Hk s. apply wp_bind. eapply wp_mono; [apply Hm|].
  intros [a|e] s1 t1 [-> Ht1]; simpl; [|done].
  eapply wp_mono; [apply Hk|]. intros r s2 t2 [-> Ht2].
  split; [done|]. by apply Forall_app.
Qed.

Lemma rp_ret {A} (a : A) : reads_only (mret a).
Proof. intros s. by apply wp_ret. Qed.
Lemma rp_raise {A} e : reads_only (raise e : M A).
Proof. intros s. by apply wp_raise. Qed.
Lemma rp_read {A} (f : Predictor → A) : reads_only (read f).
Proof. intros s. by apply wp_read. Qed.
Lemma rp_getattr {A} n (f : Predictor → option A) :
  reads_only (getattr n f).
Proof. intros s. apply wp_getattr. by destruct (f s). Qed.
Lemma rp_lift {A} (r : result A) : reads_only (lift r).
Proof. intros s. by apply wp_lift. Qed.
Lemma rp_print p : reads_only (print p).
Proof. intros s. apply wp_print. split; [done|]. by repeat constructor. Qed.
Lemma rp_emit e : not_fit e → reads_only (emit e).
Proof. intros He s. apply wp_emit. split; [done|]. by repeat constructor. Qed.
Lemma rp_print_all ps : reads_only (print_all ps).
Proof.
  intros s. apply wp_print_all. split; [done|].
  apply Forall_fmap, Forall_true. done.
Qed.
Lemma rp_when b m : reads_only m → reads_only (when b m).
Proof. destruct b; [done|]. intros _. apply rp_ret. Qed.
Lemma rp_no_pipeline {A} attr : reads_only (no_pipeline attr : M A).
Proof. apply rp_raise. Qed.

Ltac rp_step :=
  lazymatch goal with
  | |- reads_only (_ ≫= _) => apply rp_bind; [|intros ?]
  | |- reads_only (mret _) => apply rp_ret
  | |- reads_only (ret _) => apply rp_ret
  | |- reads_only (raise _) => apply rp_raise
  | |- reads_only (no_pipeline _) => apply rp_no_pipeline
  | |- reads_only (read _) => apply rp_read
  | |- reads_only (getattr _ _) => apply rp_getattr
  | |- reads_only (lift _) => apply rp_lift
  | |- reads_only (print _) => apply rp_print
  | |- reads_only (emit _) => apply rp_emit; exact I
  | |- reads_only (print_all _) => apply rp_print_all
  | |- reads_only (when _ _) => apply rp_when
  | |- reads_only (match ?x with _ => _ end) => destruct x
  end.

Lemma rp_get_estimator_names : reads_only _get_estimator_names.
Proof.
  intros s. destruct (_get_estimator_names s) as [[r s'] t] eqn:H.
  eapply wp_intro; [done|]. apply get_estimator_names_state in H as [-> ->].
  done.
Qed.

Lemma rp_search_params oe ofm mfa pfs user :
  reads_only (_construct_pipeline_search_params oe ofm mfa pfs user).
Proof.
  intros s.
  destruct (_construct_pipeline_search_params oe ofm mfa pfs user s)
    as [[r s'] t] eqn:H.
  eapply wp_intro; [done|]. apply search_params_state in H as [-> ->]. done.
Qed.

Lemma rp_analytics_regression :
  reads_only _print_ml_analytics_results_regression.
Proof. unfold _print_ml_analytics_results_regression. repeat rp_step. Qed.

Lemma rp_analytics_random_forest :
  reads_only _print_ml_analytics_results_random_forest.
Proof. unfold _print_ml_analytics_results_random_forest. repeat rp_step. Qed.

Lemma rp_print_training_summary gs :
  reads_only (print_training_summary gs).
Proof. unfold print_training_summary. repeat rp_step. Qed.

Lemma rp_score X y : reads_only (score X y).
Proof. unfold score. repeat rp_step. Qed.

Lemma rp_score_holdout : reads_only score_holdout.
Proof.
  unfold score_holdout. repeat first [rp_step | apply rp_score].
Qed.

Lemma wp_call {A B} (m : M A) (k : A → M B) s Q :
  reads_only m →
  (∀ r t, m s = (r, s, t) → Forall not_fit t →
     match r with
     | Ok a => wp (k a) s (λ r' s2 t2, Q r' s2 (t ++ t2))
     | Raise e => Q (Raise e) s t
     end) →
  wp (m ≫= k) s Q.
Proof.
  intros Hm Hk. apply wp_bind.
  destruct (m s) as [[r s1] t] eqn:E.
  pose proof (wp_elim _ _ _ _ _ _ (Hm s) E) as [-> Ht].
  eapply wp_intro; [done|]. by apply Hk.
Qed.


(** ** The per-family search *)

Lemma fit_axes_app t1 t2 : fit_axes (t1 ++ t2) = fit_axes t1 ++ fit_axes t2.
Proof. apply omap_app. Qed.

Lemma fit_axes_prints t : Forall not_fit t → fit_axes t = [].
Proof.
  induction 1 as [|e t He _ IH]; [done|].
  destruct e; done.
Qed.

Ltac proj_simpl :=
  cbn [type_of_estimator column_descriptions verbose trained_pipeline
       _scorer date_cols took_log_of_y grid_search_pipelines output_column
       write_gs_param_results_to_file compute_power ml_for_analytics
       only_analytics X_test y_test print_training_summary_to_viewer
       take_log_of_y gs_param_file_name grid_search_params
       set_trained_pipeline set_scorer set_took_log_of_y
       set_grid_search_pipelines set_write_gs_param_results_to_file
       set_compute_power set_ml_for_analytics set_only_analytics set_X_test
       set_y_test set_print_training_summary_to_viewer set_take_log_of_y
       set_gs_param_file_name set_grid_search_params
       holdout_data_score cv_score fitted_search search best_estimator_
       best_score_ best_params_ param_grid estimator] in *.

Ltac rp_solve :=
  repeat first
    [ rp_step | apply rp_search_params | apply rp_get_estimator_names
    | apply rp_analytics_regression | apply rp_analytics_random_forest
    | apply rp_print_training_summary | apply rp_score
    | apply rp_score_holdout ].

(** One statement: an assignment, an emitted event, or a call that only
    reads. *)
Ltac wp_next :=
  lazymatch goal with
  | |- wp (assign _ ≫= _) _ _ =>
      apply wp_bind, wp_assign; cbn beta iota; proj_simpl
  | |- wp (emit (EFit _ _ _) ≫= _) _ _ =>
      apply wp_bind, wp_emit; cbn beta iota; proj_simpl
  | |- wp (read _ ≫= _) _ _ =>
      apply wp_bind, wp_read; cbn beta iota; proj_simpl
  | |- wp (lift ?r ≫= _) _ _ =>
      apply wp_bind, wp_lift; destruct r eqn:?; cbn beta iota; proj_simpl
  | |- wp (getattr _ grid_search_pipelines ≫= _) _ _ =>
      apply wp_bind, wp_getattr; proj_simpl;
      destruct (grid_search_pipelines _) eqn:?; cbn beta iota; proj_simpl
  | |- wp (when _ (print _) ≫= _) _ _ =>
      apply wp_when_print; cbn beta iota; proj_simpl
  | |- wp (_ ≫= _) _ _ =>
      apply wp_call; [by rp_solve|];
      let r := fresh "r" in let t := fresh "t" in
      let Hrun := fresh "Hrun" in let Ht := fresh "Ht" in
      intros r t Hrun Ht; destruct r; cbn beta iota; proj_simpl
  end.

Lemma score_holdout_spec s h s' t :
  score_holdout s = (Ok h, s', t) →
  ∀ pipeline xt yt, trained_pipeline s = Some pipeline →
    X_test s = Some xt → y_test s = Some yt →
    match truthy_list xt, truthy_list yt with
    | Some X_t, Some y_t => ∃ v, h = Some v ∧ scored s pipeline X_t y_t = Ok v
    | _, _ => h = None
    end.
Proof.
  intros Hrun pipeline xt yt Hp Hx Hy. revert Hrun.
  unfold score_holdout, score, scored. msimpl. rewrite Hx.
  destruct (truthy_list xt) as [X_t|]; [|intros; by simplify_eq].
  msimpl. rewrite Hy. msimpl.
  destruct (truthy_list yt) as [y_t|]; [|intros; by simplify_eq].
  msimpl. rewrite Hp.
  destruct (_scorer s) as [scorer|]; msimpl.
  - destruct (scorer_call _ _ _ _ _) as [v|e]; intros; simplify_eq. eauto.
  - destruct (pipeline_score _ _ _) as [v|e]; intros; simplify_eq. eauto.
Qed.

Lemma fit_axes_fit gs X y :
  fit_axes [EFit gs X y] = [param_grid gs !! axis_family].
Proof. done. Qed.

Lemma same_config_refl s : same_config s s.
Proof. by repeat split. Qed.

Ltac fit_norm :=
  rewrite ?fit_axes_app;
  repeat match goal with
  | H : Forall not_fit ?t |- context [fit_axes ?t] =>
      rewrite (fit_axes_prints t H)
  end;
  rewrite ?fit_axes_fit; proj_simpl;
  unfold axis_family; rewrite ?lookup_insert_eq;
  cbn [fit_axes omap list_omap app].

Lemma search_one_family_spec ppl sc X y name s :
  wp (search_one_family ppl sc X y name) s (λ r s' t,
    same_config s s'
    ∧ match r with
      | Ok _ =>
          ∃ old res,
            grid_search_pipelines s = Some old
            ∧ grid_search_pipelines s' = Some (old ++ [res])
            ∧ trained_pipeline s' = Some (best_estimator_ (fitted_search res))
            ∧ param_grid (search (fitted_search res)) !! axis_family
              = one_family name
            ∧ cv_score res = best_score_ (fitted_search res)
            ∧ holdout_ok s res
            ∧ fit_axes t = [one_family name]
      | Raise e =>
          grid_search_pipelines s' = grid_search_pipelines s
          ∧ fit_axes t `prefix_of` [one_family name]
          ∧ (fit_axes t = [] → trained_pipeline s' = trained_pipeline s)
      end).
Proof.
  unfold search_one_family.
  apply wp_call; [apply rp_search_params|]. intros [g|e] t0 Hrun Ht0.
  2:{ split; [apply same_config_refl|]. repeat split; try done.
      fit_norm. apply prefix_nil. }
  repeat wp_next.
  all: try match goal with p : (_ * _ * _)%type |- _ => destruct p as [[best best_score] best_params] end.
  all: cbn beta iota; proj_simpl.
  all: repeat wp_next.
  all: try (apply wp_assign; proj_simpl).
  all: try (split; [by repeat split|]).
  all: try (split; [done|]; split;
            [ fit_norm; first [apply prefix_nil | done]
            | fit_norm; first [done | intros; discriminate] ]).
  eexists _, _. repeat split; try done.
  - proj_simpl. unfold axis_family. by rewrite lookup_insert_eq.
  - intros xt yt Hx Hy.
    eapply score_holdout_spec in Hrun4; [|done..]. proj_simpl.
    unfold scored in *. proj_simpl. done.
  - by fit_norm.
Qed.

Lemma same_config_trans s1 s2 s3 :
  same_config s1 s2 → same_config s2 s3 → same_config s1 s3.
Proof. unfold same_config. intros H1 H2. destruct_and!. repeat split; congruence. Qed.

Lemma holdout_ok_config s s' res :
  same_config s s' → holdout_ok s' res → holdout_ok s res.
Proof.
  unfold same_config, holdout_ok, scored. intros Hc H xt yt Hx Hy.
  destruct_and!. specialize (H xt yt).
  repeat match goal with E : _ s' = _ s |- _ => rewrite E in H end.
  by apply H.
Qed.

Lemma perform_grid_search_spec names ppl sc X y s :
  wp (perform_grid_search_by_model_names names ppl sc X y) s (λ r s' t,
    same_config s s'
    ∧ fit_axes t `prefix_of` (one_family <$> names)
    ∧ match r with
      | Ok _ =>
          fit_axes t = one_family <$> names
          ∧ ∃ new,
              grid_search_pipelines s'
              = (λ old, old ++ new) <$> grid_search_pipelines s
              ∧ Forall2 (entry_ok s) names new
      | Raise _ => True
      end).
Proof.
  unfold perform_grid_search_by_model_names.
  apply wp_for_each with
    (I := λ done s1 t1,
       same_config s s1
       ∧ fit_axes t1 = one_family <$> done
       ∧ ∃ new,
           grid_search_pipelines s1
           = (λ old, old ++ new) <$> grid_search_pipelines s
           ∧ Forall2 (entry_ok s) done new).
  - split; [apply same_config_refl|]. split; [done|]. exists [].
    split; [|done]. destruct (grid_search_pipelines s); simpl; [|done].
    by rewrite app_nil_r.
  - intros done x rest s1 t1 Hl (Hc & Ht & new & Hnew & Hall).
    eapply wp_mono; [apply search_one_family_spec|].
    intros [[]|e] s2 t2; simpl.
    + intros (Hc2 & old & res & Hold & Hgsp & _ & Hax & Hcv & Hho & Ht2).
      split; [by eapply same_config_trans|].
      split; [by rewrite fit_axes_app, Ht, Ht2, fmap_app|].
      exists (new ++ [res]). split.
      * rewrite Hgsp. rewrite Hold in Hnew.
        destruct (grid_search_pipelines s) as [old0|]; simplify_eq/=.
        by rewrite app_assoc.
      * apply Forall2_app; [done|]. constructor; [|done].
        repeat split; [done..|]. by eapply holdout_ok_config.
    + intros (Hc2 & _ & Hpre & _).
      split; [by eapply same_config_trans|]. split; [|done].
      rewrite fit_axes_app, Ht, Hl, fmap_app. apply prefix_app.
      etrans; [done|]. simpl. by apply prefix_cons, prefix_nil.
  - intros s' t (Hc & Ht & Hnew). split; [done|]. by rewrite Ht.
Qed.

Lemma search_one_family_classifier ppl sc X y name s cp :
  type_of_estimator s = "classifier" → compute_power s = Some cp →
  search_one_family ppl sc X y name s
  = (Raise (NameError "compute_power"), s, []).
Proof.
  intros Hty Hcp. unfold search_one_family. msimpl.
  by rewrite (search_params_classifier s _ _ _ _ _ cp).
Qed.

Lemma perform_grid_search_classifier ppl sc X y name names s cp :
  type_of_estimator s = "classifier" → compute_power s = Some cp →
  perform_grid_search_by_model_names (name :: names) ppl sc X y s
  = (Raise (NameError "compute_power"), s, []).
Proof.
  intros Hty Hcp. unfold perform_grid_search_by_model_names. simpl. msimpl.
  by rewrite (search_one_family_classifier _ _ _ _ _ s cp).
Qed.

(** ** The search space and the compute power *)

Lemma regressor_names_mono p p' :
  p ≤ p' → regressor_names p `prefix_of` regressor_names p'.
Proof.
  intros Hle. unfold regressor_names.
  destruct (Z.ltb_spec p 7), (Z.ltb_spec p' 7); try lia; try done.
  by eexists.
Qed.

Lemma search_grid_mono p p' ofm names names' axis vals :
  p ≤ p' → names `prefix_of` names' →
  search_grid p ofm names !! axis = Some vals →
  ∃ vals', search_grid p' ofm names' !! axis = Some vals'
           ∧ vals `prefix_of` vals'.
Proof.
  intros Hle Hn. unfold search_grid.
  assert (PStr <$> names `prefix_of` PStr <$> names') as Hn'.
  { destruct Hn as [k ->]. rewrite fmap_app. by eexists. }
  destruct (Z.leb_spec 3 p), (Z.leb_spec 5 p), (Z.leb_spec 10 p),
    (Z.leb_spec 3 p'), (Z.leb_spec 5 p'), (Z.leb_spec 10 p'), ofm;
    try lia; unfold id;
    unfold axis_selection, axis_family, axis_scaler, axis_inner;
    intros Hl;
    repeat match type of Hl with
    | <[?k := _]> _ !! axis = _ =>
        destruct (decide (k = axis)) as [<-|];
        [ rewrite lookup_insert_eq in Hl; simplify_eq;
          eexists; split; [by simplify_map_eq|done]
        | rewrite lookup_insert_ne in Hl by done ]
    end; by rewrite lookup_empty in Hl.
Qed.

(** C4. For compute powers [p ≤ p'], every axis of the search space
    generated at [p] is an axis of the one generated at [p'] (same other
    arguments), with at least the same values in the same order; and the
    fits of a run of [perform_grid_search_by_model_names] carry, in search
    order, the [final_model__model_name] axis restricted to exactly the
    family being searched: a prefix of the requested names, all of them
    when the run succeeds. *)
Theorem search_space_grows_one_family_per_search
    (s : Predictor) (p p' : Z)
    (optimize_entire_pipeline optimize_final_model for_analytics
     perform_feature_selection : bool)
    (user_defined_model_names : option (list string))
    (g : ParamGrid) (s1 : Predictor) (t1 : list event)
    (estimator_names : list string) (ppl : Pipeline) (sc : Scorer)
    (X : list Row) (y : list value)
    (s2 : Predictor) (r : result unit) (s3 : Predictor) (t : list event) :
  compute_power s = Some p →
  p ≤ p' →
  _construct_pipeline_search_params optimize_entire_pipeline
    optimize_final_model for_analytics perform_feature_selection
    user_defined_model_names s = (Ok g, s1, t1) →
  perform_grid_search_by_model_names estimator_names ppl sc X y s2
    = (r, s3, t) →
  (∃ g',
     _construct_pipeline_search_params optimize_entire_pipeline
       optimize_final_model for_analytics perform_feature_selection
       user_defined_model_names (set_compute_power (Some p') s)
     = (Ok g', set_compute_power (Some p') s, [])
     ∧ ∀ axis vals, g !! axis = Some vals →
         ∃ vals', g' !! axis = Some vals' ∧ vals `prefix_of` vals')
  ∧ fit_axes t `prefix_of` (one_family <$> estimator_names)
  ∧ (r = Ok tt → fit_axes t = one_family <$> estimator_names).
Proof.
  intros Hp Hle Hg Hrun. split.
  - apply search_params_ok in Hg as (cp & names & Hcp & Hsrc & -> & _ & _).
    assert (cp = p) as -> by congruence.
    destruct Hsrc as [Hu|(Hu & Hty & ->)].
    + exists (search_grid p' optimize_final_model names). split.
      * apply search_params_run; [done|]. by left.
      * intros axis vals. by apply search_grid_mono.
    + exists (search_grid p' optimize_final_model (regressor_names p')).
      split.
      * apply search_params_run; [done|]. by right.
      * intros axis vals.
        by apply search_grid_mono, regressor_names_mono.
  - pose proof (wp_elim _ _ _ _ _ _
      (perform_grid_search_spec estimator_names ppl sc X y s2) Hrun)
      as (_ & Hpre & Hok).
    split; [done|]. intros ->. by destruct Hok.
Qed.

(** ** Target preparation *)

Lemma prepare_classifier_run s raw to_file out X y :
  type_of_estimator s = "classifier" →
  write_gs_param_results_to_file s = Some to_file →
  output_column s = Some out →
  split_output raw out = Ok (X, y) →
  _prepare_for_training raw s
  = (Ok (X, clean_y_classifier y), file_state to_file s, file_trace to_file).
Proof.
  intros Hty Hw Ho Hs. unfold _prepare_for_training. msimpl. rewrite Hw.
  destruct to_file; msimpl; proj_simpl; rewrite Ho; msimpl; rewrite Hs;
    msimpl; proj_simpl; rewrite Hty; by rewrite decide_True.
Qed.

Lemma prepare_regression_run s raw to_file out X y idxs floats vals :
  type_of_estimator s ≠ "classifier" →
  write_gs_param_results_to_file s = Some to_file →
  output_column s = Some out →
  split_output raw out = Ok (X, y) →
  scan_floats y = (idxs, floats, vals) →
  _prepare_for_training raw s
  = if bool_decide (0 < length idxs)%nat
    then (Ok (drop_rows (list_to_set idxs) X, VFloat <$> floats),
          file_state to_file s, file_trace to_file ++ bad_report idxs vals)
    else (Ok (X, VFloat <$> floats), file_state to_file s,
          file_trace to_file).
Proof.
  intros Hty Hw Ho Hs Hscan. unfold _prepare_for_training. msimpl.
  rewrite Hw.
  destruct to_file; msimpl; proj_simpl; rewrite Ho; msimpl; rewrite Hs;
    msimpl; proj_simpl; rewrite decide_False by done; rewrite Hscan;
    case_bool_decide; msimpl; by rewrite ?app_nil_r.
Qed.

(** *** [enumerate] and the two passes of the regression branch *)

Lemma elem_of_enumerate_from {A} (i : nat) (l : list A) j v :
  (j, v) ∈ enumerate_from i l ↔ (i ≤ j)%nat ∧ l !! (j - i)%nat = Some v.
Proof.
  revert i. induction l as [|x l IH]; intros i; simpl.
  - split; [by intros ?%elem_of_nil|by intros [_ ?]].
  - rewrite elem_of_cons, IH. split.
    + intros [?|[Hle Hl]]; simplify_eq.
      * split; [lia|]. by rewrite Nat.sub_diag.
      * split; [lia|]. by replace (j - i)%nat with (S (j - S i)) by lia.
    + intros [Hle Hl]. destruct (decide (j = i)) as [->|].
      * rewrite Nat.sub_diag in Hl. left. by simplify_eq/=.
      * right. split; [lia|].
        by replace (j - i)%nat with (S (j - S i)) in Hl by lia.
Qed.

Lemma enumerate_from_filter_sorted {A} (P : nat * A → Prop)
    `{!∀ x, Decision (P x)} (i : nat) (l : list A) :
  StronglySorted lt (filter P (enumerate_from i l)).*1
  ∧ Forall (λ j, i ≤ j)%nat (filter P (enumerate_from i l)).*1.
Proof.
  revert i. induction l as [|x l IH]; intros i; simpl.
  - split; constructor.
  - destruct (IH (S i)) as [Hs Hf]. rewrite filter_cons.
    destruct (decide (P (i, x))); simpl.
    + split.
      * constructor; [done|]. eapply Forall_impl; [done|]. simpl. lia.
      * constructor; [done|]. eapply Forall_impl; [done|]. simpl. lia.
    + split; [done|]. eapply Forall_impl; [done|]. simpl. lia.
Qed.

Lemma scan_floats_from (i : nat) (y : list value) idxs floats vals :
  fold_left float_step (enumerate_from i y) (idxs, floats, vals)
  = (idxs ++ (filter (λ iv, builtin_float iv.2 = None) (enumerate_from i y)).*1,
     floats ++ omap builtin_float y,
     vals ++ (filter (λ iv, builtin_float iv.2 = None) (enumerate_from i y)).*2).
Proof.
  revert i idxs floats vals. induction y as [|v y IH]; intros; simpl.
  - by rewrite !app_nil_r.
  - rewrite filter_cons.
    destruct (decide (builtin_float (i, v).2 = None)) as [Hn|Hn];
      simpl in Hn; simpl.
    + rewrite Hn, IH. simpl. by rewrite <-!app_assoc.
    + destruct (builtin_float v) as [f|]; [|done].
      rewrite IH. by rewrite <-!app_assoc.
Qed.

Lemma omap_length_lt {A B} (f : A → option B) (l : list A) :
  Exists (λ x, f x = None) l → (length (omap f l) < length l)%nat.
Proof.
  assert (∀ k : list A, (length (omap f k) ≤ length k)%nat) as Hle.
  { induction k as [|x k IH]; csimpl; [done|]. destruct (f x); csimpl; lia. }
  induction 1 as [x l Hx|x l _ IH]; csimpl.
  - rewrite Hx. specialize (Hle l). lia.
  - destruct (f x); csimpl; [lia|]. specialize (Hle l). lia.
Qed.

(** The rows kept by [drop_rows] are those at the positions of the
    targets that coerce. *)
Lemma kept_rows_from (S : gset nat) (i : nat) (X : list Row) (y : list value) :
  length X = length y →
  (∀ j v, (i ≤ j)%nat → y !! (j - i)%nat = Some v →
     (j ∈ S ↔ builtin_float v = None)) →
  (filter (λ ir : nat * Row, ir.1 ∉ S) (enumerate_from i X)).*1
  = (filter (λ iv, is_Some (builtin_float iv.2)) (enumerate_from i y)).*1.
Proof.
  revert i y. induction X as [|x X IH]; intros i [|v y] Hlen HS;
    simplify_eq/=; [done|].
  assert (i ∈ S ↔ builtin_float v = None) as Hi.
  { apply HS; [lia|]. by rewrite Nat.sub_diag. }
  assert ((filter (λ ir : nat * Row, ir.1 ∉ S) (enumerate_from (Datatypes.S i) X)).*1
          = (filter (λ iv, is_Some (builtin_float iv.2))
               (enumerate_from (Datatypes.S i) y)).*1) as Htl.
  { apply IH; [done|]. intros j w Hj Hw. apply HS; [lia|].
    by replace (j - i)%nat with (Datatypes.S (j - Datatypes.S i)) by lia. }
  rewrite !filter_cons.
  destruct (decide ((i, x).1 ∉ S)) as [H1|H1],
    (decide (is_Some (builtin_float (i, v).2))) as [H2|H2];
    simpl in H1, H2.
  - rewrite !fmap_cons. simpl. by rewrite Htl.
  - exfalso. apply H1, Hi. by apply eq_None_not_Some.
  - exfalso. apply dec_stable in H1. apply Hi in H1. rewrite H1 in H2.
    by destruct H2.
  - done.
Qed.

Lemma kept_floats_from (i : nat) (y : list value) :
  Forall2 (λ (j : nat) (v' : value),
             ∃ v f, y !! (j - i)%nat = Some v ∧ builtin_float v = Some f
                    ∧ v' = VFloat f)
    (filter (λ iv, is_Some (builtin_float iv.2)) (enumerate_from i y)).*1
    (VFloat <$> omap builtin_float y).
Proof.
  assert (∀ (k : list (nat * value)),
    Forall (λ p, (i ≤ p.1)%nat ∧ y !! (p.1 - i)%nat = Some p.2) k →
    Forall2 (λ (j : nat) (v' : value),
               ∃ v f, y !! (j - i)%nat = Some v ∧ builtin_float v = Some f
                      ∧ v' = VFloat f)
      (filter (λ iv, is_Some (builtin_float iv.2)) k).*1
      (VFloat <$> omap (λ iv, builtin_float iv.2) k)) as Hk.
  { induction 1 as [|[j v] k [_ Hj] _ IH]; simpl; [constructor|].
    rewrite filter_cons. simpl in *.
    destruct (builtin_float v) as [f|] eqn:Hf.
    - rewrite decide_True by done. simpl. constructor; [|done]. eauto.
    - rewrite decide_False by (by intros [??]). done. }
  assert (∀ j (l : list value),
    omap builtin_float l = omap (λ iv, builtin_float iv.2) (enumerate_from j l))
    as Hom.
  { intros j l. revert j. induction l as [|v l IH]; intros j; simpl; [done|].
    destruct (builtin_float v); simpl; by rewrite <-IH. }
  rewrite (Hom i). apply Hk. apply Forall_forall. intros [j v] Hin.
  by apply elem_of_enumerate_from in Hin.
Qed.

Lemma filtered_lookup {A} (P : nat * A → Prop) `{!∀ x, Decision (P x)}
    (l : list A) :
  Forall2 (λ (j : nat) (x : A), l !! j = Some x)
    (filter P (enumerate l)).*1 (filter P (enumerate l)).*2.
Proof.
  assert (Forall (λ p : nat * A, l !! p.1 = Some p.2)
            (filter P (enumerate l))) as Hall.
  { apply Forall_forall. intros [j x] Hin.
    apply list_elem_of_filter in Hin as [_ Hin].
    apply elem_of_enumerate_from in Hin as [_ Hin].
    by rewrite Nat.sub_0_r in Hin. }
  induction Hall as [|[j x] k Hj _ IH]; simpl; by constructor.
Qed.

Lemma filtered_indices {A} (Q : A → Prop) `{!∀ x, Decision (Q x)}
    (l : list A) (i : nat) :
  i ∈ (filter (λ iv : nat * A, Q iv.2) (enumerate l)).*1
  ↔ ∃ v, l !! i = Some v ∧ Q v.
Proof.
  rewrite list_elem_of_fmap. split.
  - intros ([j v] & -> & Hin). apply list_elem_of_filter in Hin as [Hn Hin].
    apply elem_of_enumerate_from in Hin as [_ Hin].
    rewrite Nat.sub_0_r in Hin. eauto.
  - intros (v & Hv & Hn). exists (i, v). split; [done|].
    apply list_elem_of_filter. split; [done|].
    apply elem_of_enumerate_from. rewrite Nat.sub_0_r. split; [lia|done].
Qed.

Lemma scan_floats_eq (y : list value) :
  scan_floats y
  = ((filter (λ iv, builtin_float iv.2 = None) (enumerate y)).*1,
     omap builtin_float y,
     (filter (λ iv, builtin_float iv.2 = None) (enumerate y)).*2).
Proof. unfold scan_floats, enumerate. by rewrite scan_floats_from. Qed.

Lemma prepare_regression_ok s raw to_file out X y :
  type_of_estimator s ≠ "classifier" →
  write_gs_param_results_to_file s = Some to_file →
  output_column s = Some out →
  split_output raw out = Ok (X, y) →
  ∃ X' t,
    _prepare_for_training raw s
    = (Ok (X', VFloat <$> omap builtin_float y), file_state to_file s, t)
    ∧ Forall not_fit t.
Proof.
  intros Hty Hw Ho Hs.
  erewrite prepare_regression_run; [|done..|apply scan_floats_eq].
  case_bool_decide; eexists _, _; (split; [done|]).
  - apply Forall_app. split; [by destruct to_file; repeat constructor|].
    by repeat constructor.
  - by destruct to_file; repeat constructor.
Qed.

Lemma split_output_length raw out (X : list Row) (y : list value) :
  split_output raw out = Ok (X, y) → length X = length y.
Proof.
  unfold split_output. destruct (map_result _ raw) as [pairs|e]; [|done].
  intros ?; simplify_eq. by rewrite !length_fmap.
Qed.

(** C2. On a regressor whose targets contain a value that [float] cannot
    coerce, preparation succeeds; it prints the indices of exactly those
    values, in ascending order, and the values themselves; the rows and
    targets it returns are those at the other indices, in order, the
    targets coerced; both have the same length, smaller than before. *)
Theorem prepare_regression_drops_bad_rows
    (s : Predictor) (raw : list Row) (to_file : bool) (out : string)
    (X : list Row) (y : list value) :
  type_of_estimator s = "regressor" →
  write_gs_param_results_to_file s = Some to_file →
  output_column s = Some out →
  split_output raw out = Ok (X, y) →
  Exists (λ v, builtin_float v = None) y →
  ∃ X' y' s' t idxs vals kept,
    _prepare_for_training raw s = (Ok (X', y'), s', t)
    (* what is reported *)
    ∧ EPrint (PIndices idxs) ∈ t ∧ EPrint (PValues vals) ∈ t
    ∧ StronglySorted lt idxs
    ∧ (∀ i, i ∈ idxs ↔ ∃ v, y !! i = Some v ∧ builtin_float v = None)
    ∧ Forall2 (λ i v, y !! i = Some v) idxs vals
    (* what is kept *)
    ∧ StronglySorted lt kept
    ∧ (∀ i, i ∈ kept ↔ ∃ v, y !! i = Some v ∧ is_Some (builtin_float v))
    ∧ Forall2 (λ i row, X !! i = Some row) kept X'
    ∧ Forall2 (λ i v', ∃ v f, y !! i = Some v ∧ builtin_float v = Some f
                              ∧ v' = VFloat f) kept y'
    ∧ length X' = length y'
    ∧ (length y' < length y)%nat.
Proof.
  intros Hty Hw Ho Hsplit Hbad.
  pose proof (split_output_length _ _ _ _ Hsplit) as Hlen.
  pose (bad := filter (λ iv : nat * value, builtin_float iv.2 = None)
                 (enumerate y)).
  pose (good := filter (λ iv : nat * value, is_Some (builtin_float iv.2))
                  (enumerate y)).
  assert (scan_floats y = (bad.*1, omap builtin_float y, bad.*2)) as Hscan.
  { unfold scan_floats, enumerate. by rewrite scan_floats_from. }
  assert (∀ i, i ∈ bad.*1 ↔ ∃ v, y !! i = Some v ∧ builtin_float v = None)
    as Hidx.
  { intros i. exact (filtered_indices (λ v, builtin_float v = None) y i). }
  assert (0 < length bad.*1)%nat as Hpos.
  { apply Exists_exists in Hbad as (v & Hv & Hn).
    apply list_elem_of_lookup in Hv as [i Hi].
    assert (i ∈ bad.*1) as Hin by (apply Hidx; eauto).
    destruct (bad.*1); [by apply elem_of_nil in Hin|simpl; lia]. }
  assert ((filter (λ ir : nat * Row, ir.1 ∉ (list_to_set bad.*1 : gset nat))
             (enumerate X)).*1 = good.*1) as Hkept.
  { apply kept_rows_from; [done|]. intros j v _ Hv.
    rewrite Nat.sub_0_r in Hv. rewrite elem_of_list_to_set, Hidx.
    split; [intros (w & ? & ?); by simplify_eq|eauto]. }
  assert (Forall2 (λ i row, X !! i = Some row) good.*1
            (drop_rows (list_to_set bad.*1) X)) as HX.
  { rewrite <-Hkept. apply filtered_lookup. }
  assert (Forall2 (λ i v', ∃ v f, y !! i = Some v ∧ builtin_float v = Some f
                                  ∧ v' = VFloat f)
            good.*1 (VFloat <$> omap builtin_float y)) as Hy.
  { eapply Forall2_impl; [apply (kept_floats_from 0)|]. simpl.
    intros j v'. by rewrite Nat.sub_0_r. }
  exists (drop_rows (list_to_set bad.*1) X), (VFloat <$> omap builtin_float y),
    (file_state to_file s), (file_trace to_file ++ bad_report bad.*1 bad.*2),
    bad.*1, bad.*2, good.*1.
  split.
  { erewrite prepare_regression_run; [|by rewrite ?Hty|done..].
    by rewrite bool_decide_eq_true_2. }
  split.
  { apply elem_of_app. right. unfold bad_report.
    do 2 apply list_elem_of_further. apply list_elem_of_here. }
  split.
  { apply elem_of_app. right. unfold bad_report.
    do 4 apply list_elem_of_further. apply list_elem_of_here. }
  split; [apply enumerate_from_filter_sorted|].
  split; [done|].
  split; [apply filtered_lookup|].
  split; [apply enumerate_from_filter_sorted|].
  split; [intros i; exact (filtered_indices (λ v, is_Some (builtin_float v)) y i)|].
  split; [done|]. split; [done|]. split.
  - apply Forall2_length in HX, Hy. congruence.
  - rewrite length_fmap. by apply omap_length_lt.
Qed.

(** C7, amended. On a classifier, preparation never fails on a target
    value and drops no record; when every target value coerces with [int]
    the targets become those integers, and when any value fails the whole
    target sequence is returned as it was, no value coerced. *)
Theorem prepare_classifier_all_or_nothing
    (s : Predictor) (raw : list Row) (to_file : bool) (out : string)
    (X : list Row) (y : list value) :
  type_of_estimator s = "classifier" →
  write_gs_param_results_to_file s = Some to_file →
  output_column s = Some out →
  split_output raw out = Ok (X, y) →
  ∃ y' s' t,
    _prepare_for_training raw s = (Ok (X, y'), s', t)
    ∧ length y' = length y
    ∧ (Forall (λ v, is_Some (builtin_int v)) y →
         Forall2 (λ v v', ∃ n, builtin_int v = Some n ∧ v' = VInt n) y y')
    ∧ (Exists (λ v, builtin_int v = None) y → y' = y).
Proof.
  intros Hty Hw Ho Hsplit.
  eexists _, _, _. split; [by eapply prepare_classifier_run|].
  unfold clean_y_classifier.
  destruct (mapM builtin_int y) as [ints|] eqn:Hm.
  - apply mapM_Some in Hm. split; [|split].
    + rewrite length_fmap. symmetry. by eapply Forall2_length.
    + intros _. apply Forall2_fmap_r.
      eapply Forall2_impl; [done|]. simpl. eauto.
    + intros Hex. apply mapM_None in Hex.
      apply mapM_Some in Hm. congruence.
  - split; [done|]. split; [|done].
    intros Hall. apply mapM_None in Hm.
    apply Exists_exists in Hm as (v & Hv & Hn).
    rewrite Forall_forall in Hall. specialize (Hall v Hv).
    rewrite Hn in Hall. by destruct Hall.
Qed.

(** ** [predict] *)

Lemma wp_run {A} (m : M A) s Q :
  wp m s Q → ∃ r s' t, m s = (r, s', t) ∧ Q r s' t.
Proof. unfold wp. destruct (m s) as [[r s'] t]. eauto. Qed.

(** C3. With the log transform recorded, [predict] on a pipeline output
    that is a flat sequence starting with a number ends with [TypeError]
    at the first element: the loop unpacks each element as a pair. *)
Theorem predict_flat_output_raises
    (s : Predictor) (pipeline : Fitted) (prediction_data : list Row)
    (v : value) (rest : list pred_item) :
  trained_pipeline s = Some pipeline →
  took_log_of_y s = true →
  pipeline_predict pipeline prediction_data = Ok (Scalar v :: rest) →
  (∀ str, v ≠ VStr str) →
  predict prediction_data s
  = (Raise (TypeError "object is not iterable"), s, []).
Proof.
  intros Hp Htook Hout Hv. unfold predict. msimpl.
  rewrite Hp. msimpl. rewrite Hout. msimpl. rewrite Htook. simpl.
  by destruct v; [..|destruct (Hv s0)].
Qed.

Lemma predict_without_log (s : Predictor) (pipeline : Fitted)
    (prediction_data : list Row) (vals : list pred_item) :
  trained_pipeline s = Some pipeline →
  took_log_of_y s = false →
  pipeline_predict pipeline prediction_data = Ok vals →
  predict prediction_data s = (Ok vals, s, []).
Proof.
  intros Hp Htook Hout. unfold predict. msimpl.
  rewrite Hp. msimpl. rewrite Hout. msimpl. by rewrite Htook.
Qed.

(** ** [train] *)

(** Target preparation fits nothing and assigns at most
    [self.gs_param_file_name]. *)
Lemma prepare_frame (raw : list Row) (s : Predictor) :
  wp (_prepare_for_training raw) s (λ _ s' t,
    (∃ b, s' = file_state b s) ∧ Forall not_fit t).
Proof.
  unfold _prepare_for_training.
  apply wp_bind, wp_getattr.
  destruct (write_gs_param_results_to_file s) as [to_file|];
    [|split; [by exists false|done]].
  apply wp_bind.
  assert (∀ s1 t1, (∃ b, s1 = file_state b s) → Forall not_fit t1 →
    ∀ B (m : M B), reads_only m →
      wp m s1 (λ _ s2 t2,
        (∃ b, s2 = file_state b s) ∧ Forall not_fit (t1 ++ t2))) as Hrest.
  { intros s1 t1 Hs1 Ht1 B m Hm. eapply wp_mono; [apply Hm|].
    intros r s2 t2 [-> Ht2]. split; [done|]. by apply Forall_app. }
  destruct to_file; simpl.
  - apply wp_bind, wp_assign. simpl. apply wp_emit. simpl.
    eapply wp_mono;
      [apply (Hrest _ [ERemove gs_results_file]);
         [by exists true|by repeat constructor|by rp_solve]|].
    by intros ??? [??].
  - apply wp_ret. simpl.
    eapply wp_mono;
      [apply (Hrest _ []); [by exists false|done|by rp_solve]|].
    by intros ??? [??].
Qed.

Lemma file_state_fields b s :
  type_of_estimator (file_state b s) = type_of_estimator s
  ∧ trained_pipeline (file_state b s) = trained_pipeline s
  ∧ took_log_of_y (file_state b s) = took_log_of_y s
  ∧ take_log_of_y (file_state b s) = take_log_of_y s
  ∧ compute_power (file_state b s) = compute_power s
  ∧ ml_for_analytics (file_state b s) = ml_for_analytics s
  ∧ grid_search_pipelines (file_state b s) = grid_search_pipelines s
  ∧ X_test (file_state b s) = X_test s
  ∧ y_test (file_state b s) = y_test s.
Proof. by destruct b. Qed.

Lemma log_of_nonpositive_raises (floats : list float) :
  Exists (λ f, float_le f float_zero = true) floats →
  map_result math_log (VFloat <$> floats)
  = Raise (ValueError "math domain error").
Proof.
  induction floats as [|f floats IH]; intros Hex; [by inversion Hex|].
  rewrite fmap_cons. cbn [map_result].
  destruct (float_le f float_zero) eqn:Hle.
  - by rewrite math_log_domain.
  - pose proof (math_log_positive f Hle) as Hok.
    destruct (math_log (VFloat f)) as [l|e]; [|done].
    rewrite IH; [done|]. inversion Hex; simplify_eq; [congruence|done].
Qed.

(** C10. On a regressor trained with [take_log_of_y], a target value
    that coerces to a float [<= 0] makes [train] end with the math domain
    error; nothing was fitted, and the retained pipeline and
    [took_log_of_y] are as before. *)
Theorem train_log_of_nonpositive_target_aborts
    (s : Predictor) (raw : list Row) (kw : train_kwargs) (out : string)
    (X : list Row) (y : list value) (v : value) (f : float) :
  type_of_estimator s = "regressor" →
  kw_take_log_of_y kw = true →
  output_column s = Some out →
  split_output raw out = Ok (X, y) →
  v ∈ y → builtin_float v = Some f → float_le f float_zero = true →
  ∃ s' t,
    train raw kw s = (Raise (ValueError "math domain error"), s', t)
    ∧ trained_pipeline s' = trained_pipeline s
    ∧ took_log_of_y s' = took_log_of_y s
    ∧ Forall not_fit t.
Proof.
  intros Hty Hlog Ho Hsplit Hv Hf Hle.
  cut (wp (train raw kw) s (λ r s' t,
         r = Raise (ValueError "math domain error")
         ∧ trained_pipeline s' = trained_pipeline s
         ∧ took_log_of_y s' = took_log_of_y s
         ∧ Forall not_fit t)).
  { intros (r & s' & t & Hrun & -> & ?)%wp_run. eauto. }
  unfold train, train_and_search.
  apply wp_bind.
  repeat wp_next.
  rewrite Hty. rewrite bool_decide_eq_true_2 by done.
  apply wp_bind, wp_when, wp_assign. cbn beta iota. proj_simpl.
  wp_next.
  destruct (prepare_regression_ok
    (set_take_log_of_y (Some (kw_take_log_of_y kw))
       (set_print_training_summary_to_viewer
          (Some (kw_print_training_summary_to_viewer kw))
          (set_y_test (Some (kw_y_test kw))
             (set_X_test (Some (kw_X_test kw))
                (set_only_analytics (Some (kw_only_analytics kw))
                   (set_ml_for_analytics (Some (kw_ml_for_analytics kw))
                      (set_compute_power (Some (kw_compute_power kw))
                         (set_write_gs_param_results_to_file
                            (Some (kw_write_gs_param_results_to_file kw))
                            s))))))))
    raw (kw_write_gs_param_results_to_file kw) out X y)
    as (X' & tp & Hprep & Htp);
    [by proj_simpl; rewrite Hty|done..|].
  apply wp_bind. eapply wp_intro; [exact Hprep|]. cbn beta iota.
  apply wp_bind, wp_getattr.
  destruct (kw_write_gs_param_results_to_file kw); unfold file_state;
    proj_simpl; rewrite Hlog; cbn beta iota.
  all: apply wp_bind, wp_bind, wp_lift.
  all: rewrite log_of_nonpositive_raises
         by (apply Exists_exists; exists f; split; [|done];
             apply list_elem_of_omap; eauto).
  all: proj_simpl; repeat split; try done.
  all: rewrite ?app_nil_r; simpl; destruct (kw_verbose kw); simpl;
       by repeat constructor.
Qed.

Lemma truthy_list_nonempty {A} (arg : option (list A)) l :
  truthy_list arg = Some l → ∃ x l', l = x :: l'.
Proof. destruct arg as [[|x l']|]; intros; simplify_eq/=; eauto. Qed.

Ltac solve_not_fit :=
  repeat (apply Forall_app; split);
  repeat match goal with |- context [if ?b then _ else _] => destruct b end;
  try done; by repeat constructor.

(** C9, amended. Every [train] on a classifier ends with an exception
    before anything is fitted, and leaves the retained pipeline as it was.
    On a receiver whose [take_log_of_y] is not set, as construction leaves
    it, the exception is the [AttributeError] for that attribute whenever
    the targets can be split off; the unbound name [compute_power] is what
    [_get_estimator_names] raises on a classifier. *)
Theorem classifier_train_never_fits
    (s : Predictor) (raw : list Row) (kw : train_kwargs) :
  type_of_estimator s = "classifier" →
  ∃ e s' t,
    train raw kw s = (Raise e, s', t)
    ∧ Forall not_fit t
    ∧ trained_pipeline s' = trained_pipeline s
    ∧ (take_log_of_y s = None →
       ∀ out X y, output_column s = Some out →
         split_output raw out = Ok (X, y) →
         e = AttributeError "take_log_of_y")
    ∧ _get_estimator_names s = (Raise (NameError "compute_power"), s, []).
Proof.
  intros Hty.
  cut (wp (train raw kw) s (λ r s' t,
         (∃ e, r = Raise e
               ∧ (take_log_of_y s = None →
                  ∀ out X y, output_column s = Some out →
                    split_output raw out = Ok (X, y) →
                    e = AttributeError "take_log_of_y"))
         ∧ Forall not_fit t
         ∧ trained_pipeline s' = trained_pipeline s)).
  { intros (r & s' & t & Hrun & (e & -> & He) & ? & ?)%wp_run.
    exists e, s', t. repeat split; try done.
    by apply get_estimator_names_classifier. }
  unfold train, train_and_search.
  apply wp_bind.
  repeat wp_next.
  rewrite Hty. rewrite bool_decide_eq_false_2 by done.
  apply wp_bind, wp_when. cbn beta iota.
  wp_next.
  match goal with |- wp (_ ≫= _) ?s1 _ =>
    destruct (_prepare_for_training raw s1) as [[r s2] tp] eqn:Hprep;
    pose proof (wp_elim _ _ _ _ _ _ (prepare_frame raw s1) Hprep)
      as [[b ->] Htp];
    apply wp_bind; eapply wp_intro; [exact Hprep|]
  end.
  destruct r as [[X0 y0]|e]; cbn beta iota.
  2:{ split; [|split; [solve_not_fit|by destruct b]].
      eexists. split; [done|]. intros Hnone out X y Ho Hs.
      erewrite prepare_classifier_run in Hprep; [|done..]. done. }
  clear Hprep.
  assert (∀ (s1 : Predictor) (y1 : list value) (t1 : list event),
    type_of_estimator s1 = "classifier" →
    (∃ cp, compute_power s1 = Some cp) →
    is_Some (ml_for_analytics s1) →
    trained_pipeline s1 = trained_pipeline s →
    take_log_of_y s ≠ None →
    Forall not_fit t1 →
    wp
      (when (kw_verbose kw)
         (print (PText "Successfully performed basic preparations and y-value cleaning"))
       ≫= λ _,
         getattr "ml_for_analytics" ml_for_analytics ≫= λ for_analytics,
         read id ≫= λ self,
         when (kw_verbose kw)
           (print (PText "Successfully constructed the pipeline")) ≫= λ _,
         match truthy_list (kw_model_names kw) with
         | Some names => ret names
         | None => _get_estimator_names
         end ≫= λ estimator_names,
         read type_of_estimator ≫= λ ty,
         assign (set_scorer
                   (Some (if decide (ty = "classifier") then brier_scorer
                          else rmse_scoring))) ≫= λ _,
         when (kw_verbose kw)
           (print (PText "Created estimator_names and scoring")) ≫= λ _,
         perform_grid_search_by_model_names estimator_names
           (_construct_pipeline self (kw_user_input_func kw)
              "LogisticRegression" (kw_optimize_final_model kw)
              (kw_perform_feature_selection kw) true for_analytics true)
           (if decide (ty = "classifier") then brier_scorer
            else rmse_scoring) X0 y1)
      s1
      (λ r s2 t2,
         (∃ e, r = Raise e) ∧ Forall not_fit (t1 ++ t2)
         ∧ trained_pipeline s2 = trained_pipeline s)) as Htail.
  { intros s1 y1 t1 Hty1 [cp Hcp] [fa Hfa] Htp1 Hlog Ht1.
    wp_next. apply wp_bind, wp_getattr. rewrite Hfa. cbn beta iota.
    wp_next. wp_next.
    destruct (truthy_list (kw_model_names kw)) as [names|] eqn:Hn.
    - apply truthy_list_nonempty in Hn as (n & ns & ->).
      apply wp_bind, wp_ret. cbn beta iota.
      wp_next. wp_next. wp_next.
      eapply wp_intro.
      { apply (perform_grid_search_classifier _ _ _ _ _ _ _ cp);
          by proj_simpl. }
      proj_simpl. split; [eauto|]. split; [solve_not_fit|done].
    - apply wp_bind. eapply wp_intro.
      { by apply get_estimator_names_classifier. }
      split; [eauto|]. split; [solve_not_fit|done]. }
  destruct b; unfold file_state.
  all: apply wp_bind, wp_getattr; proj_simpl.
  all: destruct (take_log_of_y s) as [[|]|] eqn:Htl; cbn beta iota.
  all: try (split; [by eexists|split; [solve_not_fit|done]]).
  all: apply wp_bind.
  all: try (apply wp_bind, wp_lift;
            destruct (map_result math_log y0) as [logs|e]; cbn beta iota;
            [apply wp_bind, wp_assign, wp_ret; cbn beta iota; proj_simpl
            |split; [by eexists|split; [solve_not_fit|done]]]).
  all: try (apply wp_ret; cbn beta iota).
  all: eapply wp_mono;
         [apply Htail with (t1 := []); proj_simpl; eauto|].
  all: intros r s2 t2 ([e ->] & Ht & Htp2); simpl in Ht.
  all: split; [by eexists|split; [solve_not_fit|done]].
Qed.

(** ** Selection of the best entry *)

Lemma head_insert_desc {A} (key : A → float) x l :
  head (insert_desc key x l) = better key (head l) x.
Proof. destruct l as [|h l]; simpl; [done|]. by destruct (float_lt _ _). Qed.

Lemma head_sorted_reverse {A} (key : A → float) l :
  head (sorted_reverse key l) = fold_left (better key) l None.
Proof.
  unfold sorted_reverse. change None with (head (@nil A)).
  generalize (@nil A). induction l as [|x l IH]; intros acc; simpl; [done|].
  by rewrite IH, head_insert_desc.
Qed.

Lemma float_lt_asym x y : float_lt x y = true → float_lt y x = false.
Proof.
  intros Hxy. destruct (float_lt y x) eqn:Hyx; [|done].
  by rewrite <-(float_lt_irrefl x), (float_lt_trans x y x).
Qed.

Lemma float_lt_le_trans x y z :
  float_lt y x = false → float_lt y z = true → float_lt x z = true.
Proof.
  intros Hxy Hyz. destruct (float_lt x z) eqn:Hxz; [done|].
  assert (float_le z y = true) as Hzy.
  { apply (float_le_trans z x y); rewrite float_le_lt;
      by apply negb_true_iff. }
  rewrite float_le_lt in Hzy. apply negb_true_iff in Hzy. congruence.
Qed.

Lemma better_first_greatest {A} (key : A → float) (l p : list A) o best :
  match o with
  | None => p = []
  | Some h => first_greatest key p h
  end →
  fold_left (better key) l o = Some best →
  first_greatest key (p ++ l) best.
Proof.
  revert p o. induction l as [|x l IH]; intros p o Hinv; simpl.
  - intros ->. by rewrite app_nil_r.
  - intros Hfold. replace (p ++ x :: l) with ((p ++ [x]) ++ l)
      by by rewrite <-app_assoc.
    apply (IH _ (better key o x)); [|done].
    destruct o as [h|]; simpl.
    + destruct Hinv as (before & after & -> & Hb & Hmax).
      destruct (float_lt (key h) (key x)) eqn:Hhx.
      * exists (before ++ h :: after), []. split; [done|]. split.
        -- intros r Hr. eapply float_lt_le_trans; [|done]. by apply Hmax.
        -- intros r [Hr|Hr%list_elem_of_singleton]%elem_of_app.
           ++ apply float_lt_asym. eapply float_lt_le_trans; [|done].
              by apply Hmax.
           ++ subst. apply float_lt_irrefl.
      * exists before, (after ++ [x]). split; [by rewrite <-app_assoc|].
        split; [done|].
        intros r [Hr|Hr%list_elem_of_singleton]%elem_of_app;
          [by apply Hmax|by subst].
    + subst. exists [], []. split; [done|]. split.
      * by intros r ?%elem_of_nil.
      * intros r Hr%list_elem_of_singleton. subst. apply float_lt_irrefl.
Qed.

Lemma sorted_reverse_head {A} (key : A → float) (l : list A) best rest :
  sorted_reverse key l = best :: rest → first_greatest key l best.
Proof.
  intros Hs. apply (better_first_greatest key l [] None); [done|].
  by rewrite <-head_sorted_reverse, Hs.
Qed.

Lemma fold_better_some {A} (key : A → float) (l : list A) h :
  is_Some (fold_left (better key) l (Some h)).
Proof.
  revert h. induction l as [|y l IH]; intros h; simpl; [done|].
  destruct (float_lt _ _); apply IH.
Qed.

Lemma sorted_reverse_nil {A} (key : A → float) (l : list A) :
  sorted_reverse key l = [] → l = [].
Proof.
  intros Hs. pose proof (head_sorted_reverse key l) as Hh.
  rewrite Hs in Hh. destruct l as [|x l]; [done|]. simpl in Hh.
  destruct (fold_better_some key l x) as [b Hb]. congruence.
Qed.

Lemma train_and_search_spec (s : Predictor) (raw : list Row)
    (kw : train_kwargs) :
  type_of_estimator s = "regressor" →
  wp (train_and_search raw kw) s (λ r s' t,
    match r with
    | Ok _ =>
        ∃ names new,
          requested_families kw names
          ∧ fit_axes t = one_family <$> names
          ∧ Forall2 (entry_for s kw) names new
          ∧ grid_search_pipelines s'
            = (λ old, old ++ new) <$> grid_search_pipelines s
    | Raise _ => True
    end).
Proof.
  intros Hty. unfold train_and_search.
  repeat wp_next.
  rewrite Hty. rewrite bool_decide_eq_true_2 by done.
  apply wp_bind, wp_when, wp_assign. cbn beta iota. proj_simpl.
  wp_next.
  apply wp_bind. eapply wp_mono; [apply prepare_frame|].
  intros [[X y]|e] s1 tp [[b ->] Htp]; [|done]. cbn beta iota.
  apply wp_bind, wp_getattr.
  destruct b; unfold file_state; proj_simpl.
  all: destruct (kw_take_log_of_y kw) eqn:Hlog; cbn beta iota.
  all: apply wp_bind.
  all: try (apply wp_bind, wp_lift;
            destruct (map_result math_log y) as [logs|e]; cbn beta iota;
            [apply wp_bind, wp_assign, wp_ret; cbn beta iota; proj_simpl
            |done]).
  all: try (apply wp_ret; cbn beta iota).
  all: wp_next.
  all: apply wp_bind, wp_getattr; proj_simpl; cbn beta iota.
  all: wp_next; wp_next.
  all: destruct (truthy_list (kw_model_names kw)) as [names|] eqn:Hn;
    [ apply wp_bind, wp_ret
    | apply wp_bind; eapply wp_intro;
      [apply (get_estimator_names_regressor _ (kw_compute_power kw));
         by proj_simpl|] ];
    cbn beta iota.
  all: wp_next; unfold id; proj_simpl; rewrite Hty;
    rewrite decide_False by done.
  all: wp_next; wp_next.
  all: eapply wp_mono; [apply perform_grid_search_spec|].
  all: intros [[]|e] s2 t2; [|done].
  all: intros (Hc & _ & Hfit & new & Hnew & Hall).
  all: proj_simpl.
  all: eexists _, new.
  all: split; [first [by left | by right]|].
  all: split;
    [ rewrite !fit_axes_app, Hfit;
      rewrite ?(fit_axes_prints tp) by done;
      destruct (kw_verbose kw); by cbn|].
  all: split; [|done].
  all: eapply Forall2_impl; [exact Hall|].
  all: intros name res (Hax & Hcv & Hho).
  all: split; [done|]; split; [done|].
  all: specialize (Hho (kw_X_test kw) (kw_y_test kw) eq_refl eq_refl).
  all: unfold scored in Hho; proj_simpl; by rewrite ?Hlog.
Qed.

Lemma select_best_spec (s : Predictor) (results : list pipeline_results)
    (s' : Predictor) (t : list event) :
  grid_search_pipelines s = Some results →
  select_best s = (Ok tt, s', t) →
  ∃ best,
    first_greatest first_score results best
    ∧ trained_pipeline s' = Some (best_estimator_ (fitted_search best))
    ∧ grid_search_pipelines s' = None
    ∧ t = [].
Proof.
  intros Hgsp. unfold select_best. msimpl. rewrite Hgsp.
  destruct (sorted_reverse first_score results) as [|best rest] eqn:Hs;
    msimpl; [done|].
  intros ?; simplify_eq. exists best.
  split; [by eapply sorted_reverse_head|]. done.
Qed.


Lemma select_best_ok (s s' : Predictor) (t : list event) :
  select_best s = (Ok tt, s', t) → is_Some (grid_search_pipelines s).
Proof.
  unfold select_best. msimpl.
  by destruct (grid_search_pipelines s) as [results|].
Qed.

Lemma bind_ok_inv {A B} (m : M A) (k : A → M B) s b s' t :
  (m ≫= k) s = (Ok b, s', t) →
  ∃ a s1 t1 t2, m s = (Ok a, s1, t1) ∧ k a s1 = (Ok b, s', t2)
                ∧ t = t1 ++ t2.
Proof.
  msimpl. destruct (m s) as [[[a|e] s1] t1]; [|done].
  destruct (k a s1) as [[r s2] t2] eqn:Hk. intros ?; simplify_eq.
  by exists a, s1, t1, t2.
Qed.

Lemma train_unfold (raw : list Row) (kw : train_kwargs) (s : Predictor) :
  train raw kw s = (train_and_search raw kw ≫= λ _, select_best) s.
Proof. unfold train. reflexivity. Qed.

Lemma train_ok_inv (raw : list Row) (kw : train_kwargs) s s' t :
  train raw kw s = (Ok tt, s', t) →
  ∃ s1 t1 t2,
    train_and_search raw kw s = (Ok tt, s1, t1)
    ∧ select_best s1 = (Ok tt, s', t2)
    ∧ t = t1 ++ t2.
Proof.
  rewrite train_unfold. intros Htrain.
  apply bind_ok_inv in Htrain as ([] & s1 & t1 & t2 & Hts & Hsel & ->).
  exists s1, t1, t2. repeat split; assumption.
Qed.

Lemma train_and_search_ok (s : Predictor) (raw : list Row)
    (kw : train_kwargs) s1 t1 :
  type_of_estimator s = "regressor" →
  train_and_search raw kw s = (Ok tt, s1, t1) →
  ∃ names new,
    requested_families kw names
    ∧ fit_axes t1 = one_family <$> names
    ∧ Forall2 (entry_for s kw) names new
    ∧ grid_search_pipelines s1
      = (λ old, old ++ new) <$> grid_search_pipelines s.
Proof.
  intros Hty Hts.
  exact (wp_elim _ _ _ _ _ _ (train_and_search_spec s raw kw Hty) Hts).
Qed.


(** ** The column roles recorded by [__init__] *)

Lemma dict_set_app (key v v0 : string) (d1 d2 : list (string * string)) :
  key ∉ d1.*1 →
  dict_set key v (d1 ++ (key, v0) :: d2) = d1 ++ (key, v) :: d2.
Proof.
  induction d1 as [|[k w] d1 IH]; intros Hk; simpl.
  - by rewrite decide_True.
  - rewrite fmap_cons, not_elem_of_cons in Hk. destruct Hk as [Hne Hk].
    rewrite decide_False by done. by rewrite IH.
Qed.

Lemma lower_roles_keys (cols : list (string * string)) :
  (lower_roles cols).*1 = cols.*1.
Proof.
  unfold lower_roles. rewrite <-list_fmap_compose.
  apply list_fmap_ext. by intros ? [??].
Qed.

Lemma init_columns_from (rest done : list (string * string)) out dates :
  NoDup (done ++ rest).*1 →
  fold_left
    (λ '(cd, out, dates) '(key, value),
       let value := lower value in
       let cd := dict_set key value cd in
       if decide (value = "output") then (cd, Some key, dates)
       else if decide (value = "date") then (cd, out, dates ++ [key])
       else (cd, out, dates))
    rest (lower_roles done ++ rest, out, dates)
  = (lower_roles (done ++ rest),
     from_option Some out (last (keys_with_role "output" rest)),
     dates ++ keys_with_role "date" rest).
Proof.
  revert done out dates.
  match goal with |- context [fold_left ?f] => set (step := f) end.
  induction rest as [|[key value] rest IH]; intros done out dates Hnd.
  - simpl. by rewrite !app_nil_r.
  - cbn [fold_left].
    assert (key ∉ (lower_roles done).*1) as Hk.
    { rewrite lower_roles_keys. rewrite fmap_app, fmap_cons in Hnd.
      apply NoDup_app in Hnd as (_ & Hnd & _). intros Hin.
      exact (Hnd key Hin (list_elem_of_here _ _)). }
    assert (NoDup ((done ++ [(key, value)]) ++ rest).*1) as Hnd'
      by by rewrite <-app_assoc.
    assert (step (lower_roles done ++ (key, value) :: rest, out, dates)
              (key, value)
            = (lower_roles (done ++ [(key, value)]) ++ rest,
               if decide (lower value = "output") then Some key else out,
               if decide (lower value = "output") then dates
               else if decide (lower value = "date") then dates ++ [key]
                    else dates)) as ->.
    { unfold step. cbn zeta. rewrite (dict_set_app _ _ _ _ _ Hk).
      unfold lower_roles. rewrite fmap_app, <-app_assoc. cbn.
      by repeat destruct (decide _). }
    rewrite (IH _ _ _ Hnd'). rewrite <-app_assoc. cbn [app].
    unfold keys_with_role. rewrite !filter_cons. cbn [snd].
    destruct (decide (lower value = "output")) as [Ho|Ho].
    + rewrite decide_False by (rewrite Ho; done).
      rewrite fmap_cons, last_cons. cbn [fst].
      by destruct (last _).
    + destruct (decide (lower value = "date")) as [Hd|Hd]; [|done].
      by rewrite fmap_cons, <-app_assoc.
Qed.

(** X1. [__init__] on column descriptions with distinct keys (a dict):
    the stored descriptions are the given ones with every role lowercased,
    keys and order unchanged; [date_cols] holds, in iteration order, the
    keys whose lowercased role is [date]; [output_column] is the last key
    in iteration order whose lowercased role is [output], and is not set
    when there is none. *)
Theorem init_records_column_roles
    (kind : string) (cols : list (string * string)) (v : bool) :
  NoDup cols.*1 →
  column_descriptions (new_predictor kind cols v) = lower_roles cols
  ∧ date_cols (new_predictor kind cols v) = keys_with_role "date" cols
  ∧ output_column (new_predictor kind cols v)
    = last (keys_with_role "output" cols).
Proof.
  intros Hnd. unfold new_predictor, init_columns.
  pose proof (init_columns_from cols [] None [] Hnd) as Hfold.
  cbn [lower_roles fmap list_fmap app] in Hfold.
  change (list_fmap _ _ _ []) with (@nil (string * string)) in Hfold.
  cbn [app] in Hfold. rewrite Hfold. cbn.
  by destruct (last (keys_with_role "output" cols)).
Qed.

(** ** Calls on a receiver that is not ready *)

(** X2. [train] on a receiver without an output column (no column was
    described as [output]) ends with the [AttributeError] for
    [output_column]: nothing is fitted, the retained pipeline and the
    scorer are as before, and the file of earlier search results has
    already been removed exactly when results were to be written. *)
Theorem train_without_output_column_raises
    (s : Predictor) (raw : list Row) (kw : train_kwargs) :
  output_column s = None →
  ∃ s' t,
    train raw kw s = (Raise (AttributeError "output_column"), s', t)
    ∧ Forall not_fit t
    ∧ trained_pipeline s' = trained_pipeline s
    ∧ _scorer s' = _scorer s
    ∧ (ERemove gs_results_file ∈ t
       ↔ kw_write_gs_param_results_to_file kw = true).
Proof.
  intros Hout.
  cut (wp (train raw kw) s (λ r s' t,
         r = Raise (AttributeError "output_column")
         ∧ Forall not_fit t
         ∧ trained_pipeline s' = trained_pipeline s
         ∧ _scorer s' = _scorer s
         ∧ (ERemove gs_results_file ∈ t
            ↔ kw_write_gs_param_results_to_file kw = true))).
  { intros (r & s' & t & Hrun & -> & ?)%wp_run. eauto. }
  unfold train, train_and_search.
  apply wp_bind.
  repeat wp_next.
  apply wp_bind, wp_when.
  assert (∀ s1 : Predictor,
    output_column s1 = None →
    write_gs_param_results_to_file s1
    = Some (kw_write_gs_param_results_to_file kw) →
    trained_pipeline s1 = trained_pipeline s →
    _scorer s1 = _scorer s →
    wp (when (kw_verbose kw)
          (print (PText "Welcome to auto_ml! We're about to go through and make sense of your data using machine learning"))
        ≫= λ _, _prepare_for_training raw ≫= λ '(X, y),
          getattr "take_log_of_y" take_log_of_y ≫= λ take_log,
          (if take_log : bool then
             lift (map_result math_log y) ≫= λ logs,
             assign (set_took_log_of_y true) ≫= λ _,
             ret (VFloat <$> logs)
           else ret y) ≫= λ y,
          when (kw_verbose kw)
            (print (PText "Successfully performed basic preparations and y-value cleaning")) ≫= λ _,
          getattr "ml_for_analytics" ml_for_analytics ≫= λ for_analytics,
          read id ≫= λ self,
          when (kw_verbose kw)
            (print (PText "Successfully constructed the pipeline")) ≫= λ _,
          match truthy_list (kw_model_names kw) with
          | Some names => ret names
          | None => _get_estimator_names
          end ≫= λ estimator_names,
          read type_of_estimator ≫= λ ty,
          assign (set_scorer
                    (Some (if decide (ty = "classifier") then brier_scorer
                           else rmse_scoring))) ≫= λ _,
          when (kw_verbose kw)
            (print (PText "Created estimator_names and scoring")) ≫= λ _,
          perform_grid_search_by_model_names estimator_names
            (_construct_pipeline self (kw_user_input_func kw)
               "LogisticRegression" (kw_optimize_final_model kw)
               (kw_perform_feature_selection kw) true for_analytics true)
            (if decide (ty = "classifier") then brier_scorer
             else rmse_scoring) X y)
      s1
      (λ r s2 t2,
         match r with
         | Ok _ => False
         | Raise e =>
             e = AttributeError "output_column"
             ∧ Forall not_fit t2
             ∧ trained_pipeline s2 = trained_pipeline s
             ∧ _scorer s2 = _scorer s
             ∧ (ERemove gs_results_file ∈ t2
                ↔ kw_write_gs_param_results_to_file kw = true)
         end)) as Htail.
  { intros s1 Ho Hw Htp Hsc. wp_next.
    unfold _prepare_for_training. apply wp_bind, wp_bind, wp_getattr.
    rewrite Hw. cbn beta iota.
    destruct (kw_write_gs_param_results_to_file kw); cbn [when].
    - apply wp_bind, wp_bind, wp_assign. cbn beta iota.
      apply wp_emit. cbn beta iota.
      apply wp_bind, wp_getattr. proj_simpl. rewrite Ho.
      repeat split; try done.
      + rewrite app_nil_r. destruct (kw_verbose kw); by repeat constructor.
      + intros _. rewrite app_nil_r. apply elem_of_app. right. left.
    - apply wp_bind, wp_ret. cbn beta iota.
      apply wp_bind, wp_getattr. rewrite Ho.
      repeat split; try done.
      + destruct (kw_verbose kw); by repeat constructor.
      + destruct (kw_verbose kw); simpl;
          intros Hin; repeat (apply elem_of_cons in Hin as [?|Hin]; [done|]);
          by apply elem_of_nil in Hin. }
  destruct (bool_decide (type_of_estimator s = "regressor")).
  - apply wp_assign. cbn beta iota.
    eapply wp_mono; [apply Htail; by proj_simpl|].
    intros [[]|e] s2 t2; [done|]. cbn beta iota. proj_simpl.
    by intros (-> & ? & ? & ? & ?).
  - cbn beta iota.
    eapply wp_mono; [apply Htail; by proj_simpl|].
    intros [[]|e] s2 t2; [done|]. cbn beta iota. proj_simpl.
    by intros (-> & ? & ? & ? & ?).
Qed.

(** X3. On a [Predictor] as [__init__] returns it, [predict],
    [predict_proba] and [score] each end with an [AttributeError] (the
    retained pipeline is still [None]); the receiver is left as it is and
    nothing is printed. *)
Theorem untrained_predictor_cannot_predict
    (kind : string) (cols : list (string * string)) (v : bool)
    (p : Predictor) (t : list event) (X : list Row) (y : list value) :
  __init__ kind cols v = (Ok p, t) →
  predict X p = (Raise (AttributeError "predict"), p, [])
  ∧ predict_proba X p = (Raise (AttributeError "predict_proba"), p, [])
  ∧ score X y p = (Raise (AttributeError "score"), p, []).
Proof.
  intros Hinit.
  assert (trained_pipeline p = None ∧ _scorer p = None) as [Htp Hsc].
  { unfold __init__, new_predictor in Hinit.
    destruct (init_columns cols) as [[cd out] dates].
    repeat case_match; by simplify_eq. }
  unfold predict, predict_proba, score. msimpl.
  by rewrite Htp, Hsc.
Qed.

(** ** Regression targets that all coerce *)

Lemma filter_enumerate_none {A} (P : nat * A → Prop)
    `{!∀ x, Decision (P x)} (i : nat) (l : list A) :
  Forall (λ x, ∀ j, ¬ P (j, x)) l →
  filter P (enumerate_from i l) = [].
Proof.
  revert i. induction l as [|x l IH]; intros i Hall; [done|].
  inversion Hall; simplify_eq. cbn [enumerate_from].
  rewrite filter_cons. rewrite decide_False by done. by apply IH.
Qed.

Lemma omap_all_some {A B} (f : A → option B) (l : list A) :
  Forall (λ x, is_Some (f x)) l →
  Forall2 (λ x y, f x = Some y) l (omap f l).
Proof.
  induction 1 as [|x l [y Hy] _ IH]; [constructor|].
  cbn [omap list_omap]. rewrite Hy. by constructor.
Qed.

(** X4. On a regressor whose target values all coerce to floats,
    [_prepare_for_training] drops nothing and reports nothing: the
    feature records are returned as they were split off, every target is
    its float, and the only event is the removal of the results file when
    results are to be written. *)
Theorem prepare_regression_keeps_clean_rows
    (s : Predictor) (raw : list Row) (to_file : bool) (out : string)
    (X : list Row) (y : list value) :
  type_of_estimator s = "regressor" →
  write_gs_param_results_to_file s = Some to_file →
  output_column s = Some out →
  split_output raw out = Ok (X, y) →
  Forall (λ v, is_Some (builtin_float v)) y →
  ∃ y',
    _prepare_for_training raw s
    = (Ok (X, y'), file_state to_file s, file_trace to_file)
    ∧ Forall2 (λ v v', ∃ f, builtin_float v = Some f ∧ v' = VFloat f) y y'.
Proof.
  intros Hty Hw Ho Hsplit Hall.
  pose proof (scan_floats_eq y) as Hscan. unfold enumerate in Hscan.
  rewrite filter_enumerate_none in Hscan.
  2:{ eapply Forall_impl; [exact Hall|]. intros v [f Hf] j. simpl.
      by rewrite Hf. }
  assert (type_of_estimator s ≠ "classifier") as Hne by by rewrite Hty.
  rewrite (prepare_regression_run s raw to_file out X y _ _ _
             Hne Hw Ho Hsplit Hscan).
  cbn [fmap list_fmap length]. rewrite bool_decide_eq_false_2 by lia.
  eexists. split; [done|].
  apply Forall2_fmap_r. eapply Forall2_impl; [by apply omap_all_some|].
  intros v f Hf. simpl in *. eauto.
Qed.

(** ** What [train] leaves alone *)

Lemma keeps_bind {A B C} (f : Predictor → C) (m : M A) (k : A → M B) :
  keeps f m → (∀ a, keeps f (k a)) → keeps f (m ≫= k).
Proof.
  intros Hm Hk s. apply wp_bind. eapply wp_mono; [apply Hm|].
  intros [a|e] s1 t1 Hs1; [|done].
  eapply wp_mono; [apply Hk|]. intros r s2 t2 Hs2. congruence.
Qed.

Lemma keeps_reads_only {A C} (f : Predictor → C) (m : M A) :
  reads_only m → keeps f m.
Proof.
  intros Hm s. eapply wp_mono; [apply Hm|]. by intros r s' t [-> _].
Qed.

Lemma keeps_assign {C} (f : Predictor → C) (upd : Predictor → Predictor) :
  (∀ s, f (upd s) = f s) → keeps f (assign upd).
Proof. intros Hupd s. by apply wp_assign. Qed.

Lemma keeps_emit {C} (f : Predictor → C) (e : event) : keeps f (emit e).
Proof. intros s. by apply wp_emit. Qed.

Lemma keeps_when {C} (f : Predictor → C) (b : bool) (m : M unit) :
  keeps f m → keeps f (when b m).
Proof. destruct b; [done|]. intros _. apply keeps_reads_only, rp_ret. Qed.

Lemma keeps_for_each {A C} (f : Predictor → C) (l : list A)
    (body : A → M unit) :
  (∀ x, keeps f (body x)) → keeps f (for_each l body).
Proof.
  intros Hbody. induction l as [|x l IH]; simpl.
  - apply keeps_reads_only, rp_ret.
  - apply keeps_bind; [apply Hbody|]. by intros _.
Qed.

Ltac keeps_step :=
  lazymatch goal with
  | |- keeps _ (_ ≫= _) => apply keeps_bind; [|intros ?]
  | |- keeps _ (assign _) => apply keeps_assign; intros ?; reflexivity
  | |- keeps _ (emit _) => apply keeps_emit
  | |- keeps _ (when _ _) => apply keeps_when
  | |- keeps _ (for_each _ _) => apply keeps_for_each; intros ?
  | |- keeps _ (match ?x with _ => _ end) => destruct x
  | |- keeps _ _ => apply keeps_reads_only; by rp_solve
  end.

Lemma keeps_train (raw : list Row) (kw : train_kwargs) :
  keeps constructor_attributes (train raw kw).
Proof.
  unfold train, train_and_search, select_best, _prepare_for_training,
    perform_grid_search_by_model_names, search_one_family.
  repeat keeps_step.
Qed.

(** X5. Whatever its outcome, [train] leaves what [__init__] recorded
    about the task as it was: the estimator kind, the column descriptions,
    the verbosity, the date columns and the output column. *)
Theorem train_keeps_constructor_attributes
    (s : Predictor) (raw : list Row) (kw : train_kwargs) :
  type_of_estimator (train raw kw s).1.2 = type_of_estimator s
  ∧ column_descriptions (train raw kw s).1.2 = column_descriptions s
  ∧ verbose (train raw kw s).1.2 = verbose s
  ∧ date_cols (train raw kw s).1.2 = date_cols s
  ∧ output_column (train raw kw s).1.2 = output_column s.
Proof.
  pose proof (keeps_train raw kw s) as Hk. unfold wp in Hk.
  unfold constructor_attributes in Hk. by simplify_eq.
Qed.

Lemma select_best_deletes (s s' : Predictor) (t : list event) :
  select_best s = (Ok tt, s', t) → grid_search_pipelines s' = None.
Proof.
  intros Hsel. destruct (select_best_ok s s' t Hsel) as [results Hres].
  by destruct (select_best_spec s results s' t Hres Hsel)
    as (best & _ & _ & Hdel & _).
Qed.

(** X6. A regressor on which [train] has succeeded cannot be trained
    again: the list of entries was deleted at the end of that call, and
    every further [train], whatever its data and arguments, ends with an
    exception. *)
Theorem train_cannot_be_repeated
    (s : Predictor) (raw : list Row) (kw : train_kwargs)
    (s1 : Predictor) (t1 : list event)
    (raw' : list Row) (kw' : train_kwargs) :
  type_of_estimator s = "regressor" →
  train raw kw s = (Ok tt, s1, t1) →
  grid_search_pipelines s1 = None
  ∧ ∃ e s2 t2, train raw' kw' s1 = (Raise e, s2, t2).
Proof.
  intros Hty Htrain.
  assert (type_of_estimator s1 = "regressor") as Hty1.
  { pose proof (keeps_train raw kw s) as Hk. unfold wp in Hk.
    rewrite Htrain in Hk. unfold constructor_attributes in Hk.
    simpl in Hk. simplify_eq. congruence. }
  apply train_ok_inv in Htrain as (s0 & t0 & t0' & _ & Hsel & _).
  apply select_best_deletes in Hsel. split; [done|].
  destruct (train raw' kw' s1) as [[[[]|e] s2] t2] eqn:Hagain; [|eauto].
  apply train_ok_inv in Hagain as (s3 & t3 & t3' & Hts & Hsel3 & _).
  destruct (train_and_search_ok s1 raw' kw' s3 t3 Hty1 Hts)
    as (names & new & _ & _ & _ & Hres).
  rewrite Hsel in Hres. apply select_best_ok in Hsel3 as [results Hsome].
  simpl in Hres. congruence.
Qed.

End Properties.

(** * The model on concrete inputs *)

Section Examples.
Import Demo.
#[local] Existing Instance runtime.
#[local] Existing Instance types.
#[local] Existing Instance lib.

(** Equations between closed terms are checked by evaluation. *)
Ltac by_evaluation :=
  lazymatch goal with
  | |- ?a = _ => vm_cast_no_check (@eq_refl _ a)
  end.

Lemma run_eta {A} (m : M A) (s : Predictor) (v : A) :
  (m s).1.1 = Ok v → m s = (Ok v, (m s).1.2, (m s).2).
Proof. destruct (m s) as [[r s'] t]. simpl. by intros ->. Qed.

Lemma some_default {A} (x : option A) (d : A) :
  match x with Some _ => true | None => false end = true → x = Some (default d x).
Proof. by destruct x. Qed.

(** The example of the specification: one row remains, index 1 is
    dropped with its value, and the targets are [[10.0]]. *)
Example spec_example_regression_cleaning :
  _prepare_for_training rows (configured regressor 3)
  = (Ok ([features "2020-01-01" "34"], [VFloat 10]),
     set_gs_param_file_name (Some gs_results_file) (configured regressor 3),
     [ERemove gs_results_file] ++ bad_report [1%nat] [VStr "bad"]).
Proof. by_evaluation. Qed.


(** C7 as stated fails: with targets ["1", "bad"] nothing is coerced. *)
Lemma classifier_coercion_is_not_per_record :
  ¬ classifier_targets_coerced_per_record.
Proof.
  intros H.
  destruct (H runtime types lib (configured classifier 3) labelled_rows
              true "y" feature_rows labels)
    as (y' & s' & t & Hrun & Hco).
  { reflexivity. }
  { reflexivity. }
  { reflexivity. }
  { by_evaluation. }
  assert ((_prepare_for_training labelled_rows
             (configured classifier 3)).1.1
          = Ok (feature_rows,
                labels)) as Hy by by_evaluation.
  rewrite Hrun in Hy. injection Hy as ->.
  inversion Hco as [|???? Hhd _]. discriminate Hhd.
Qed.

(** C9 as stated fails: a classifier as constructed ends [train] with
    the [AttributeError] for [take_log_of_y]. *)
Lemma classifier_train_raises_attribute_error :
  ¬ classifier_train_raises_name_error.
Proof.
  intros H.
  destruct (H runtime types lib cols true rows default_kwargs)
    as (s' & t & Hrun).
  assert ((train rows default_kwargs
             (new_predictor "classifier" cols true)).1.1
          = Raise (AttributeError "take_log_of_y")) as Hr by by_evaluation.
  rewrite Hrun in Hr. discriminate Hr.
Qed.


(** C2 at the example of the specification. *)
Lemma prepare_regression_witness :
  ∃ X' y' s' t idxs vals kept,
    _prepare_for_training rows (configured regressor 3) = (Ok (X', y'), s', t)
    ∧ EPrint (PIndices idxs) ∈ t ∧ EPrint (PValues vals) ∈ t
    ∧ StronglySorted lt idxs
    ∧ (∀ i, i ∈ idxs ↔ ∃ v, targets !! i = Some v
                              ∧ builtin_float v = None)
    ∧ Forall2 (λ i v, targets !! i = Some v) idxs vals
    ∧ StronglySorted lt kept
    ∧ (∀ i, i ∈ kept ↔ ∃ v, targets !! i = Some v
                              ∧ is_Some (builtin_float v))
    ∧ Forall2
        (λ i row, feature_rows !! i = Some row) kept X'
    ∧ Forall2
        (λ i v', ∃ v f, targets !! i = Some v
                        ∧ builtin_float v = Some f ∧ v' = VFloat f) kept y'
    ∧ length X' = length y'
    ∧ (length y' < length targets)%nat.
Proof.
  apply (prepare_regression_drops_bad_rows (configured regressor 3) rows
           true "y").
  - reflexivity.
  - reflexivity.
  - reflexivity.
  - by_evaluation.
  - apply Exists_cons_tl, Exists_cons_hd. reflexivity.
Defined.

(** C3 at a pipeline that predicts [[0.0]]. *)
Lemma predict_flat_output_witness :
  predict holdout_rows trained
  = (Raise (TypeError "object is not iterable"), trained, []).
Proof.
  apply (predict_flat_output_raises trained "Ridge" holdout_rows
           (VFloat 0) []).
  - reflexivity.
  - reflexivity.
  - reflexivity.
  - intros str. discriminate.
Defined.

(** C4 from compute power 0 to 10, and a search of two families. *)
Lemma search_space_witness :
  (∃ g',
     _construct_pipeline_search_params true false false true None
       (set_compute_power (Some 10) (configured regressor 0))
     = (Ok g', set_compute_power (Some 10) (configured regressor 0), [])
     ∧ ∀ axis vals,
         search_grid 0 false ["Ridge"; "XGBRegressor"] !! axis = Some vals →
         ∃ vals', g' !! axis = Some vals' ∧ vals `prefix_of` vals')
  ∧ fit_axes
      (perform_grid_search_by_model_names ["Ridge"; "XGBRegressor"] []
         rmse_scoring holdout_rows holdout_targets searching).2
    `prefix_of` (one_family <$> ["Ridge"; "XGBRegressor"])
  ∧ (Ok tt = Ok tt →
     fit_axes
       (perform_grid_search_by_model_names ["Ridge"; "XGBRegressor"] []
          rmse_scoring holdout_rows holdout_targets searching).2
     = one_family <$> ["Ridge"; "XGBRegressor"]).
Proof.
  apply (search_space_grows_one_family_per_search (configured regressor 0)
           0 10 true false false true None
           (search_grid 0 false ["Ridge"; "XGBRegressor"])
           (configured regressor 0) []
           ["Ridge"; "XGBRegressor"] [] rmse_scoring holdout_rows
           holdout_targets searching (Ok tt)
           (perform_grid_search_by_model_names ["Ridge"; "XGBRegressor"] []
              rmse_scoring holdout_rows holdout_targets searching).1.2).
  - reflexivity.
  - lia.
  - apply search_params_run; [reflexivity|]. right. by repeat split.
  - apply run_eta. by_evaluation.
Defined.

(** C5 at the default compute power. *)
Lemma search_params_witness :
  ∃ cp, compute_power (configured regressor 3) = Some cp
    ∧ (search_grid 3 false ["Ridge"; "XGBRegressor"] !! axis_scaler
       = Some [PBool true; PBool false] ↔ 3 ≤ cp)
    ∧ (search_grid 3 false ["Ridge"; "XGBRegressor"] !! axis_scaler = None
       ↔ cp < 3)
    ∧ (search_grid 3 false ["Ridge"; "XGBRegressor"] !! axis_inner
       = Some [PBool true; PBool false] ↔ (5 ≤ cp ∨ false = true))
    ∧ (search_grid 3 false ["Ridge"; "XGBRegressor"] !! axis_inner = None
       ↔ (cp < 5 ∧ false = false))
    ∧ (is_Some (search_grid 3 false ["Ridge"; "XGBRegressor"]
                  !! axis_selection) ↔ 10 ≤ cp).
Proof.
  apply (search_params_axes_by_power (configured regressor 3) true false
           false true None _ (configured regressor 3) []).
  by_evaluation.
Defined.

(** C7 at targets of which one is no integer. *)
Lemma prepare_classifier_witness :
  ∃ y' s' t,
    _prepare_for_training labelled_rows (configured classifier 3)
    = (Ok (feature_rows, y'),
       s', t)
    ∧ length y' = length labels
    ∧ (Forall (λ v, is_Some (builtin_int v)) labels →
       Forall2 (λ v v', ∃ n, builtin_int v = Some n ∧ v' = VInt n)
         labels y')
    ∧ (Exists (λ v, builtin_int v = None) labels →
       y' = labels).
Proof.
  apply (prepare_classifier_all_or_nothing (configured classifier 3)
           labelled_rows true "y").
  - reflexivity.
  - reflexivity.
  - reflexivity.
  - by_evaluation.
Defined.

(** C9 at a classifier as constructed. *)
Lemma classifier_train_witness :
  ∃ e s' t,
    train rows default_kwargs classifier = (Raise e, s', t)
    ∧ Forall not_fit t
    ∧ trained_pipeline s' = trained_pipeline classifier
    ∧ (take_log_of_y classifier = None →
       ∀ out X y, output_column classifier = Some out →
         split_output rows out = Ok (X, y) →
         e = AttributeError "take_log_of_y")
    ∧ _get_estimator_names classifier
      = (Raise (NameError "compute_power"), classifier, []).
Proof.
  apply (classifier_train_never_fits classifier rows default_kwargs).
  reflexivity.
Defined.

(** C10 at a target of 0. *)
Lemma train_log_abort_witness :
  ∃ s' t,
    train rows_with_zero default_kwargs regressor
    = (Raise (ValueError "math domain error"), s', t)
    ∧ trained_pipeline s' = trained_pipeline regressor
    ∧ took_log_of_y s' = took_log_of_y regressor
    ∧ Forall not_fit t.
Proof.
  apply (train_log_of_nonpositive_target_aborts regressor rows_with_zero
           default_kwargs "y" feature_rows targets_with_zero (VStr "0") 0).
  - reflexivity.
  - reflexivity.
  - reflexivity.
  - by_evaluation.
  - apply list_elem_of_further, list_elem_of_here.
  - reflexivity.
  - reflexivity.
Defined.

(** X1 at column descriptions in mixed case. *)
Lemma init_column_roles_witness :
  column_descriptions (new_predictor "regressor" mixed_case_cols true)
  = lower_roles mixed_case_cols
  ∧ date_cols (new_predictor "regressor" mixed_case_cols true)
    = keys_with_role "date" mixed_case_cols
  ∧ output_column (new_predictor "regressor" mixed_case_cols true)
    = last (keys_with_role "output" mixed_case_cols).
Proof.
  apply (init_records_column_roles "regressor" mixed_case_cols true).
  compute_done.
Defined.

(** X2 at a regressor without an output column. *)
Lemma train_without_output_witness :
  ∃ s' t,
    train rows default_kwargs no_output
    = (Raise (AttributeError "output_column"), s', t)
    ∧ Forall not_fit t
    ∧ trained_pipeline s' = trained_pipeline no_output
    ∧ _scorer s' = _scorer no_output
    ∧ (ERemove gs_results_file ∈ t
       ↔ kw_write_gs_param_results_to_file default_kwargs = true).
Proof.
  apply (train_without_output_column_raises no_output rows default_kwargs).
  reflexivity.
Defined.

(** X3 at the regressor of the example. *)
Lemma untrained_predictor_witness :
  predict holdout_rows regressor
  = (Raise (AttributeError "predict"), regressor, [])
  ∧ predict_proba holdout_rows regressor
    = (Raise (AttributeError "predict_proba"), regressor, [])
  ∧ score holdout_rows holdout_targets regressor
    = (Raise (AttributeError "score"), regressor, []).
Proof.
  apply (untrained_predictor_cannot_predict "Regressor" cols true
           regressor []).
  reflexivity.
Defined.

(** X4 at two rows whose targets both coerce. *)
Lemma prepare_clean_rows_witness :
  ∃ y',
    _prepare_for_training two_rows (configured regressor 3)
    = (Ok (feature_rows, y'), file_state true (configured regressor 3),
       file_trace true)
    ∧ Forall2 (λ v v', ∃ f, builtin_float v = Some f ∧ v' = VFloat f)
        clean_targets y'.
Proof.
  apply (prepare_regression_keeps_clean_rows (configured regressor 3)
           two_rows true "y").
  - reflexivity.
  - reflexivity.
  - reflexivity.
  - by_evaluation.
  - repeat constructor; by eexists.
Defined.

(** X6 at the example: a second [train] after one that succeeded. *)
Lemma train_repeat_witness :
  grid_search_pipelines (train rows holdout_kwargs regressor).1.2 = None
  ∧ ∃ e s2 t2,
      train rows holdout_kwargs (train rows holdout_kwargs regressor).1.2
      = (Raise e, s2, t2).
Proof.
  apply (train_cannot_be_repeated regressor rows holdout_kwargs
           (train rows holdout_kwargs regressor).1.2
           (train rows holdout_kwargs regressor).2
           rows holdout_kwargs).
  - reflexivity.
  - apply run_eta. by_evaluation.
Defined.

End Examples.
